(** * DS1302 real-time-clock driver: a shallow embedding and its properties

    The development follows [ds1302.go] (the TinyGo driver) and the stub of
    the same package built without TinyGo.  Integers of fixed width are
    modelled in [Z] with their wrap-around written out; the pin-level side
    effects are threaded through a small state monad over a world that holds
    the trace of pin events and the device wired to the pins. *)

From Stdlib Require Import ZArith List Lia Bool.
Import ListNotations.
Local Open Scope Z_scope.

(** ** Fixed-width integers *)

(** Conversion to [uint8]: the low eight bits. *)
Definition wrap8 (x : Z) : Z := x mod 256.

(** ** The parts of Go's package [time] the driver uses

    The package is not part of the repository.  The definitions follow the
    standard library (time/time.go): a [Time] is observed by the driver only
    through [abs()], the number of seconds since the absolute epoch in the
    time's own location, from which every calendar accessor is computed.  Go
    computes in [uint64] and [int]; the model uses [Z], which agrees with Go
    wherever Go's arithmetic does not overflow (all years the chip can
    hold). *)
Module time.

Definition secondsPerMinute : Z := 60.
Definition secondsPerHour : Z := 60 * secondsPerMinute.
Definition secondsPerDay : Z := 24 * secondsPerHour.
Definition daysPer400Years : Z := 365 * 400 + 97.
Definition daysPer100Years : Z := 365 * 100 + 24.
Definition daysPer4Years : Z := 365 * 4 + 1.

Definition absoluteZeroYear : Z := -292277022399.
Definition internalYear : Z := 1.
(** [(absoluteZeroYear - internalYear) * 365.2425 * secondsPerDay] *)
Definition absoluteToInternal : Z := (absoluteZeroYear - internalYear) * 31556952.
Definition internalToAbsolute : Z := - absoluteToInternal.
Definition unixToInternal : Z :=
  (1969 * 365 + 1969 / 4 - 1969 / 100 + 1969 / 400) * secondsPerDay.

Definition January : Z := 1.
Definition February : Z := 2.
Definition March : Z := 3.

(** [time.Microsecond], a [Duration] in nanoseconds. *)
Definition Microsecond : Z := 1000.

Record Time := mkTime { abs : Z; nsec : Z }.

(** [daysBefore[m]]: days of a non-leap year before month [m] begins. *)
Definition daysBefore (m : Z) : Z :=
  nth (Z.to_nat m)
      [0; 31; 31 + 28; 31 + 28 + 31; 31 + 28 + 31 + 30; 31 + 28 + 31 + 30 + 31;
       31 + 28 + 31 + 30 + 31 + 30; 31 + 28 + 31 + 30 + 31 + 30 + 31;
       31 + 28 + 31 + 30 + 31 + 30 + 31 + 31;
       31 + 28 + 31 + 30 + 31 + 30 + 31 + 31 + 30;
       31 + 28 + 31 + 30 + 31 + 30 + 31 + 31 + 30 + 31;
       31 + 28 + 31 + 30 + 31 + 30 + 31 + 31 + 30 + 31 + 30;
       31 + 28 + 31 + 30 + 31 + 30 + 31 + 31 + 30 + 31 + 30 + 31] 0.

(** [year%4 == 0 && (year%100 != 0 || year%400 == 0)], with Go's truncated
    remainder. *)
Definition isLeap (year : Z) : bool :=
  (Z.rem year 4 =? 0) && (negb (Z.rem year 100 =? 0) || (Z.rem year 400 =? 0)).

(** [norm hi lo base] returns [(nhi, nlo)] with
    [hi * base + lo = nhi * base + nlo] and [0 <= nlo < base]. *)
Definition norm (hi lo base : Z) : Z * Z :=
  let '(hi, lo) :=
    if lo <? 0 then
      let n := Z.quot (- lo - 1) base + 1 in (hi - n, lo + n * base)
    else (hi, lo) in
  if lo >=? base then
    let n := Z.quot lo base in (hi + n, lo - n * base)
  else (hi, lo).

(** Days from the absolute epoch to the start of [year]. *)
Definition daysSinceEpoch (year : Z) : Z :=
  let y := year - absoluteZeroYear in
  let n := y / 400 in
  let y := y - 400 * n in
  let d := daysPer400Years * n in
  let n := y / 100 in
  let y := y - 100 * n in
  let d := d + daysPer100Years * n in
  let n := y / 4 in
  let y := y - 4 * n in
  let d := d + daysPer4Years * n in
  let n := y in
  d + 365 * n.

(** [absDate abs] is [(year, month, day, yday)] of an absolute time. *)
Definition absDate (abs : Z) : Z * Z * Z * Z :=
  let d := abs / secondsPerDay in
  let n := d / daysPer400Years in
  let y := 400 * n in
  let d := d - daysPer400Years * n in
  let n := d / daysPer100Years in
  let n := n - Z.shiftr n 2 in
  let y := y + 100 * n in
  let d := d - daysPer100Years * n in
  let n := d / daysPer4Years in
  let y := y + 4 * n in
  let d := d - daysPer4Years * n in
  let n := d / 365 in
  let n := n - Z.shiftr n 2 in
  let y := y + n in
  let d := d - 365 * n in
  let year := y + absoluteZeroYear in
  let yday := d in
  let day := yday in
  let after_leap := isLeap year && (day >? 31 + 29 - 1) in
  if isLeap year && (day =? 31 + 29 - 1) then (year, February, 29, yday)
  else
    let day := if after_leap then day - 1 else day in
    let month := day / 31 in
    let e := daysBefore (month + 1) in
    let '(month, begin) :=
      if day >=? e then (month + 1, e) else (month, daysBefore month) in
    let month := month + 1 in
    (year, month, day - begin + 1, yday).

(** [time.Date(year, month, day, hour, min, sec, nsec, time.UTC)]: values
    outside their usual ranges are normalized during the conversion. *)
Definition Date (year month day hour min sec nsec : Z) : Time :=
  let m := month - 1 in
  let '(year, m) := norm year m 12 in
  let month := m + 1 in
  let '(sec, nsec) := norm sec nsec 1000000000 in
  let '(min, sec) := norm min sec 60 in
  let '(hour, min) := norm hour min 60 in
  let '(day, hour) := norm day hour 24 in
  let d := daysSinceEpoch year in
  let d := d + daysBefore (month - 1) in
  let d := if isLeap year && (month >=? March) then d + 1 else d in
  let d := d + (day - 1) in
  let abs := d * secondsPerDay in
  let abs := abs + (hour * secondsPerHour + min * secondsPerMinute + sec) in
  mkTime abs nsec.

(** The zero value [time.Time{}]: January 1, year 1, 00:00:00 UTC. *)
Definition zero : Time := mkTime internalToAbsolute 0.

Definition Year (t : Time) : Z := let '(y, _, _, _) := absDate (abs t) in y.
Definition Month (t : Time) : Z := let '(_, m, _, _) := absDate (abs t) in m.
Definition Day (t : Time) : Z := let '(_, _, d, _) := absDate (abs t) in d.
Definition Hour (t : Time) : Z := (abs t mod secondsPerDay) / secondsPerHour.
Definition Minute (t : Time) : Z := (abs t mod secondsPerHour) / secondsPerMinute.
Definition Second (t : Time) : Z := abs t mod secondsPerMinute.

(** [t.Unix()], for a time in UTC. *)
Definition Unix (t : Time) : Z := abs t - (unixToInternal + internalToAbsolute).

End time.

(** ** The parts of TinyGo's package [machine] the driver uses

    A [Pin] is a pin number ([uint8]).  Every call of a pin method, and every
    [time.Sleep], is an event; the world holds the chronological trace of
    events and the state of the device wired to the pins, which observes
    every event and decides what [Get] returns. *)
Module machine.

Definition Pin := Z.

Inductive PinMode := PinOutput | PinInput.

Record PinConfig := mkPinConfig { Mode : PinMode }.

End machine.

Import machine.

Inductive Event :=
| EvConfigure (p : Pin) (m : PinMode)
| EvHigh (p : Pin)
| EvLow (p : Pin)
| EvGet (p : Pin) (v : bool)
| EvSleep (ns : Z).

Record Device := mkDevice {
  dev_state : Type;
  dev_step : Event -> dev_state -> dev_state;
  dev_level : Pin -> dev_state -> bool
}.

Record World (D : Device) := mkWorld {
  trace : list Event;
  dev : dev_state D
}.
Arguments mkWorld {D} _ _.
Arguments trace {D} _.
Arguments dev {D} _.

(** The level a pin was last driven to in a trace, if it was driven. *)
Definition drive (p : Pin) (acc : option bool) (e : Event) : option bool :=
  match e with
  | EvHigh q => if q =? p then Some true else acc
  | EvLow q => if q =? p then Some false else acc
  | _ => acc
  end.

Definition line_level (p : Pin) (tr : list Event) : option bool :=
  fold_left (drive p) tr None.

(** The device after it has observed a list of events. *)
Definition dev_run (D : Device) (evs : list Event) (s : dev_state D) : dev_state D :=
  fold_left (fun s e => dev_step D e s) evs s.

(** The world after the events [evs] have happened. *)
Definition push {D : Device} (w : World D) (evs : list Event) : World D :=
  mkWorld (trace w ++ evs) (dev_run D evs (dev w)).

(** Every [Get] in [evs] reports the level the device drives at that
    moment, when the events start from device state [s]. *)
Fixpoint sampled (D : Device) (s : dev_state D) (evs : list Event) : Prop :=
  match evs with
  | [] => True
  | e :: rest =>
      match e with
      | EvGet p v => v = dev_level D p s
      | _ => True
      end /\ sampled D (dev_step D e s) rest
  end.

(** ** The driver ([ds1302.go]) *)

Definition DS1302_SECONDS_WRITE : Z := 0x80.
Definition DS1302_SECONDS_READ : Z := 0x81.
Definition DS1302_MINUTES_WRITE : Z := 0x82.
Definition DS1302_MINUTES_READ : Z := 0x83.
Definition DS1302_HOURS_WRITE : Z := 0x84.
Definition DS1302_HOURS_READ : Z := 0x85.
Definition DS1302_DATE_WRITE : Z := 0x86.
Definition DS1302_DATE_READ : Z := 0x87.
Definition DS1302_MONTH_WRITE : Z := 0x88.
Definition DS1302_MONTH_READ : Z := 0x89.
Definition DS1302_DAY_WRITE : Z := 0x8A.
Definition DS1302_DAY_READ : Z := 0x8B.
Definition DS1302_YEAR_WRITE : Z := 0x8C.
Definition DS1302_YEAR_READ : Z := 0x8D.
Definition DS1302_WP_WRITE : Z := 0x8E.
Definition DS1302_WP_READ : Z := 0x8F.

Record DS1302 := mkDS1302 { clk : Pin; dat : Pin; rst : Pin }.

Definition NewDS1302 (clk dat rst : Pin) : DS1302 := mkDS1302 clk dat rst.

(** [((bcd >> 4) * 10) + (bcd & 0x0F)] on [uint8]. *)
Definition bcdToDec (bcd : Z) : Z :=
  wrap8 (wrap8 (Z.shiftr bcd 4 * 10) + Z.land bcd 0x0F).

(** [((dec / 10) << 4) + (dec % 10)] on [uint8]. *)
Definition decToBcd (dec : Z) : Z :=
  wrap8 (wrap8 (Z.shiftl (dec / 10) 4) + dec mod 10).

(** The six local variables of [ReadTime]. *)
Record Decoded := mkDecoded {
  seconds : Z; minutes : Z; hours : Z; day : Z; month : Z; year : Z
}.

Section Driver.

Variable D : Device.

(** Stateful code is a function from the world to a result and the next
    world. *)
Definition M (A : Type) : Type := World D -> A * World D.

Definition ret {A : Type} (a : A) : M A := fun w => (a, w).

Definition bind {A B : Type} (m : M A) (k : A -> M B) : M B :=
  fun w => let (a, w') := m w in k a w'.

Notation "x <- m ;; k" := (bind m (fun x => k))
  (at level 61, m at next level, right associativity).
Notation "m ;; k" := (bind m (fun _ => k))
  (at level 61, right associativity).

Definition emit (e : Event) : M unit := fun w => (tt, push w [e]).

(** Methods of [machine.Pin] and [time.Sleep]. *)
Definition Configure (p : Pin) (c : PinConfig) : M unit := emit (EvConfigure p (Mode c)).
Definition High (p : Pin) : M unit := emit (EvHigh p).
Definition Low (p : Pin) : M unit := emit (EvLow p).
Definition Get (p : Pin) : M bool :=
  fun w => let v := dev_level D p (dev w) in (v, push w [EvGet p v]).
Definition Sleep (ns : Z) : M unit := emit (EvSleep ns).

(** [for i := lo; ...; i++ { a = body i a }], run for [n] iterations. *)
Fixpoint for_from {A : Type} (n : nat) (i : Z) (body : Z -> A -> M A) (a : A) : M A :=
  match n with
  | O => ret a
  | S n' => a' <- body i a ;; for_from n' (i + 1) body a'
  end.

Definition Init (d : DS1302) : M unit :=
  Configure (clk d) (mkPinConfig PinOutput) ;;
  Configure (dat d) (mkPinConfig PinOutput) ;;
  Configure (rst d) (mkPinConfig PinOutput) ;;
  Low (clk d) ;;
  Low (rst d) ;;
  Low (dat d).

Definition writeByte (d : DS1302) (data : Z) : M unit :=
  Configure (dat d) (mkPinConfig PinOutput) ;;
  for_from 8 0 (fun i _ =>
    (if negb (Z.land data (wrap8 (Z.shiftl 1 i)) =? 0)
     then High (dat d) else Low (dat d)) ;;
    High (clk d) ;;
    Sleep time.Microsecond ;;
    Low (clk d) ;;
    Sleep time.Microsecond) tt.

Definition readByte (d : DS1302) : M Z :=
  let data := 0 in
  Configure (dat d) (mkPinConfig PinInput) ;;
  for_from 8 0 (fun i data =>
    High (clk d) ;;
    Sleep time.Microsecond ;;
    b <- Get (dat d) ;;
    let data := if b then Z.lor data (wrap8 (Z.shiftl 1 i)) else data in
    Low (clk d) ;;
    Sleep time.Microsecond ;;
    ret data) data.

Definition writeRegister (d : DS1302) (reg value : Z) : M unit :=
  High (rst d) ;;
  writeByte d reg ;;
  writeByte d value ;;
  Low (rst d).

Definition readRegister (d : DS1302) (reg : Z) : M Z :=
  High (rst d) ;;
  writeByte d reg ;;
  value <- readByte d ;;
  Low (rst d) ;;
  ret value.

Definition SetTime (d : DS1302) (t : time.Time) : M unit :=
  writeRegister d DS1302_WP_WRITE 0x00 ;;
  writeRegister d DS1302_SECONDS_WRITE (decToBcd (wrap8 (time.Second t))) ;;
  writeRegister d DS1302_MINUTES_WRITE (decToBcd (wrap8 (time.Minute t))) ;;
  writeRegister d DS1302_HOURS_WRITE (decToBcd (wrap8 (time.Hour t))) ;;
  writeRegister d DS1302_DATE_WRITE (decToBcd (wrap8 (time.Day t))) ;;
  writeRegister d DS1302_MONTH_WRITE (decToBcd (wrap8 (time.Month t))) ;;
  writeRegister d DS1302_YEAR_WRITE (decToBcd (wrap8 (time.Year t - 2000))) ;;
  writeRegister d DS1302_WP_WRITE 0x80.

(** The body of [ReadTime] up to its return statement. *)
Definition ReadTime_decode (d : DS1302) : M Decoded :=
  raw <- readRegister d DS1302_SECONDS_READ ;;
  let seconds := bcdToDec (Z.land raw 0x7F) in
  raw <- readRegister d DS1302_MINUTES_READ ;;
  let minutes := bcdToDec raw in
  raw <- readRegister d DS1302_HOURS_READ ;;
  let hours := bcdToDec raw in
  raw <- readRegister d DS1302_DATE_READ ;;
  let day := bcdToDec raw in
  raw <- readRegister d DS1302_MONTH_READ ;;
  let month := bcdToDec raw in
  raw <- readRegister d DS1302_YEAR_READ ;;
  let year := 2000 + bcdToDec raw in
  ret (mkDecoded seconds minutes hours day month year).

(** [time.Date(year, month, day, hours, minutes, seconds, 0, time.UTC)]. *)
Definition assemble (v : Decoded) : time.Time :=
  time.Date (year v) (month v) (day v) (hours v) (minutes v) (seconds v) 0.

Definition ReadTime (d : DS1302) : M time.Time :=
  v <- ReadTime_decode d ;;
  ret (assemble v).

End Driver.

Arguments ret {D A} _ _.
Arguments bind {D A B} _ _ _.
Arguments Init {D} _ _.
Arguments writeByte {D} _ _ _.
Arguments readByte {D} _ _.
Arguments writeRegister {D} _ _ _ _.
Arguments readRegister {D} _ _ _.
Arguments SetTime {D} _ _ _.
Arguments ReadTime_decode {D} _ _.
Arguments ReadTime {D} _ _.

(** ** The stub of the package built without TinyGo *)
Module stub.

(** [type DS1302 struct{}] *)
Record DS1302 : Set := mkDS1302 { }.

Definition NewDS1302 {A B C : Type} (_ : A) (_ : B) (_ : C) : DS1302 := mkDS1302.

Definition Init {D : Device} (d : DS1302) : M D unit := ret tt.

Definition SetTime {D : Device} (d : DS1302) (_ : time.Time) : M D unit := ret tt.

Definition ReadTime {D : Device} (d : DS1302) : M D time.Time := ret time.zero.

End stub.

(** ** Sequences of calls of the public surface *)

Inductive Call :=
| CallInit
| CallSetTime (t : time.Time)
| CallReadTime.

(** The public surface of a driver instance, with either build. *)
Record Backend (D : Device) := mkBackend {
  do_Init : M D unit;
  do_SetTime : time.Time -> M D unit;
  do_ReadTime : M D time.Time
}.
Arguments do_Init {D} _ _.
Arguments do_SetTime {D} _ _ _.
Arguments do_ReadTime {D} _ _.

Definition hardware {D : Device} (d : DS1302) : Backend D :=
  mkBackend D (Init d) (SetTime d) (ReadTime d).

Definition substitute {D : Device} (d : stub.DS1302) : Backend D :=
  mkBackend D (stub.Init d) (stub.SetTime d) (stub.ReadTime d).

(** Runs the calls in order; returns what the [ReadTime] calls returned. *)
Fixpoint run_calls {D : Device} (b : Backend D) (cs : list Call) : M D (list time.Time) :=
  match cs with
  | [] => ret []
  | CallInit :: cs' => bind (do_Init b) (fun _ => run_calls b cs')
  | CallSetTime t :: cs' => bind (do_SetTime b t) (fun _ => run_calls b cs')
  | CallReadTime :: cs' =>
      bind (do_ReadTime b) (fun t => bind (run_calls b cs') (fun ts => ret (t :: ts)))
  end.

(** ** A simulated chip

    Modelled from the spec: the simulated chip of the end-to-end scenario,
    which simply stores each byte written at a write address and returns it
    on the matching read address (write address + 1).  It is wired to the
    three pins of a driver instance and follows the serial protocol bit by
    bit: raising chip-select starts a transaction; the first eight clock
    pulses shift in the command byte, least-significant bit first, sampled
    on the rising edge; for an even (write) command the next eight rising
    edges shift in the data byte, which is stored at the command address
    after the last one; for an odd (read) command the chip drives the data
    line with the bits of the byte stored at the command address minus one,
    moving to the next bit on each falling edge. *)
Record Chip := mkChip {
  ce : bool;          (* chip-select level *)
  io : bool;          (* level the host drives on the data line *)
  nrise : Z;          (* rising clock edges since chip-select went high *)
  nfall : Z;          (* falling clock edges since chip-select went high *)
  cmd : Z;            (* command byte shifted in so far *)
  shreg : Z;          (* data byte shifted in so far *)
  regs : Z -> Z;      (* byte stored at each write address *)
  cmds : list Z       (* command bytes received, oldest first *)
}.

Definition chip_select (c : Chip) : Chip :=
  mkChip true (io c) 0 0 0 0 (regs c) (cmds c).

Definition chip_deselect (c : Chip) : Chip :=
  mkChip false (io c) (nrise c) (nfall c) (cmd c) (shreg c) (regs c) (cmds c).

Definition chip_data (b : bool) (c : Chip) : Chip :=
  mkChip (ce c) b (nrise c) (nfall c) (cmd c) (shreg c) (regs c) (cmds c).

Definition bit_at (b : bool) (i : Z) : Z := if b then Z.shiftl 1 i else 0.

Definition store (m : Z -> Z) (a v : Z) : Z -> Z :=
  fun x => if x =? a then v else m x.

Definition chip_rise (c : Chip) : Chip :=
  if negb (ce c) then c
  else if nrise c <? 8 then
    let cmd' := Z.lor (cmd c) (bit_at (io c) (nrise c)) in
    mkChip (ce c) (io c) (nrise c + 1) (nfall c) cmd' (shreg c) (regs c)
           (if nrise c =? 7 then cmds c ++ [cmd'] else cmds c)
  else if nrise c <? 16 then
    if Z.even (cmd c) then
      let sh := Z.lor (shreg c) (bit_at (io c) (nrise c - 8)) in
      mkChip (ce c) (io c) (nrise c + 1) (nfall c) (cmd c) sh
             (if nrise c =? 15 then store (regs c) (cmd c) sh else regs c) (cmds c)
    else
      mkChip (ce c) (io c) (nrise c + 1) (nfall c) (cmd c) (shreg c) (regs c) (cmds c)
  else c.

Definition chip_fall (c : Chip) : Chip :=
  if negb (ce c) then c
  else mkChip (ce c) (io c) (nrise c) (nfall c + 1) (cmd c) (shreg c) (regs c) (cmds c).

Definition chip_step (d : DS1302) (e : Event) (c : Chip) : Chip :=
  match e with
  | EvHigh p =>
      if p =? rst d then chip_select c
      else if p =? clk d then chip_rise c
      else if p =? dat d then chip_data true c
      else c
  | EvLow p =>
      if p =? rst d then chip_deselect c
      else if p =? clk d then chip_fall c
      else if p =? dat d then chip_data false c
      else c
  | _ => c
  end.

(** The level the chip drives on the data line. *)
Definition chip_out (c : Chip) : bool :=
  ce c && Z.odd (cmd c) && (8 <=? nrise c)
  && (8 <=? nfall c) && (nfall c <? 16)
  && Z.testbit (regs c (cmd c - 1)) (nfall c - 8).

Definition chip_level (d : DS1302) (p : Pin) (c : Chip) : bool :=
  (p =? dat d) && chip_out c.

Definition SimChip (d : DS1302) : Device :=
  mkDevice Chip (chip_step d) (chip_level d).

(** A deselected chip holding the given register contents. *)
Definition chip_with (m : Z -> Z) : Chip := mkChip false false 0 0 0 0 m [].

(** A world with an empty trace in which that chip is wired to the pins of
    [d]. *)
Definition sim_world (d : DS1302) (m : Z -> Z) : World (SimChip d) :=
  @mkWorld (SimChip d) [] (chip_with m).

(** ** Specification-level definitions *)

(** The codec as the specification words it. *)
Definition bcdToDecimal_spec (b : Z) : Z := Z.shiftr b 4 * 10 + Z.land b 0x0F.

Definition decimalToBcd_spec (v : Z) : Z := Z.lor (Z.shiftl (v / 10) 4) (v mod 10).

(** The six calendar fields of a timestamp. *)
Definition fields (t : time.Time) : list Z :=
  [time.Year t; time.Month t; time.Day t; time.Hour t; time.Minute t; time.Second t].

(** The bits of a byte in the order [writeByte] sends them. *)
Definition bits8 (b : Z) : list bool := map (Z.testbit b) [0; 1; 2; 3; 4; 5; 6; 7].

(** The byte whose bits, least-significant first, are [bs]. *)
Fixpoint byte_of_bits (bs : list bool) : Z :=
  match bs with
  | [] => 0
  | b :: rest => Z.b2z b + 2 * byte_of_bits rest
  end.

(** One clock pulse with its two delays. *)
Definition clock_pulse (d : DS1302) (mid : list Event) : list Event :=
  [EvHigh (clk d); EvSleep 1000] ++ mid ++ [EvLow (clk d); EvSleep 1000].

(** The events of [writeByte]: direction, then per bit the data level and
    a clock pulse. *)
Definition write_cell (d : DS1302) (b : bool) : list Event :=
  (if b then EvHigh (dat d) else EvLow (dat d)) :: clock_pulse d [].

Definition writeByte_events (d : DS1302) (data : Z) : list Event :=
  EvConfigure (dat d) PinOutput :: flat_map (write_cell d) (bits8 data).

(** The events of [readByte] when the sampled levels are [bs]. *)
Definition read_cell (d : DS1302) (b : bool) : list Event :=
  clock_pulse d [EvGet (dat d) b].

Definition readByte_events (d : DS1302) (bs : list bool) : list Event :=
  EvConfigure (dat d) PinInput :: flat_map (read_cell d) bs.

(** The frame of one register write and of one register read. *)
Definition write_frame (d : DS1302) (rv : Z * Z) : list Event :=
  [EvHigh (rst d)] ++ writeByte_events d (fst rv) ++ writeByte_events d (snd rv)
  ++ [EvLow (rst d)].

Definition read_frame (d : DS1302) (reg : Z) (bs : list bool) : list Event :=
  [EvHigh (rst d)] ++ writeByte_events d reg ++ readByte_events d bs
  ++ [EvLow (rst d)].

(** The register writes of [SetTime], as address and value. *)
Definition SetTime_writes (t : time.Time) : list (Z * Z) :=
  [(0x8E, 0x00);
   (0x80, decToBcd (wrap8 (time.Second t)));
   (0x82, decToBcd (wrap8 (time.Minute t)));
   (0x84, decToBcd (wrap8 (time.Hour t)));
   (0x86, decToBcd (wrap8 (time.Day t)));
   (0x88, decToBcd (wrap8 (time.Month t)));
   (0x8C, decToBcd (wrap8 (time.Year t - 2000)));
   (0x8E, 0x80)].

(** Both lines idle: clock and chip-select were last driven low. *)
Definition idle (d : DS1302) (tr : list Event) : Prop :=
  line_level (clk d) tr = Some false /\ line_level (rst d) tr = Some false.

(** Days of month [m] in a leap or common year, and in year [y]. *)
Definition month_length (leap : bool) (m : Z) : Z :=
  if (m =? 2) && leap then 29 else time.daysBefore m - time.daysBefore (m - 1).

Definition daysIn (y m : Z) : Z := month_length (time.isLeap y) m.

(** Decoded values that form a calendar date and a time of day. *)
Definition in_calendar (v : Decoded) : Prop :=
  0 <= seconds v <= 59 /\ 0 <= minutes v <= 59 /\ 0 <= hours v <= 23 /\
  1 <= month v <= 12 /\ 1 <= day v <= daysIn (year v) (month v).

(** The loop body of [readByte], named. *)
Definition read_body (D : Device) (d : DS1302) (i data : Z) : M D Z :=
  bind (High D (clk d)) (fun _ =>
  bind (Sleep D time.Microsecond) (fun _ =>
  bind (Get D (dat d)) (fun b =>
  let data := if b then Z.lor data (wrap8 (Z.shiftl 1 i)) else data in
  bind (Low D (clk d)) (fun _ =>
  bind (Sleep D time.Microsecond) (fun _ =>
  ret data))))).

(** The decoding [ReadTime] applies to the six raw bytes it reads, in the
    order seconds, minutes, hours, date, month, year. *)
Definition decode_raw (raw : list Z) : Decoded :=
  mkDecoded (bcdToDec (Z.land (nth 0 raw 0) 0x7F))
            (bcdToDec (nth 1 raw 0))
            (bcdToDec (nth 2 raw 0))
            (bcdToDec (nth 3 raw 0))
            (bcdToDec (nth 4 raw 0))
            (2000 + bcdToDec (nth 5 raw 0)).

(** The read addresses [ReadTime] issues, in order. *)
Definition ReadTime_reads : list Z := [0x81; 0x83; 0x85; 0x87; 0x89; 0x8D].

(** The frames of the reads [ReadTime] issues when the sampled bits of the
    six bytes are [bss]. *)
Definition ReadTime_events (d : DS1302) (bss : list (list bool)) : list Event :=
  flat_map (fun rb => read_frame d (fst rb) (snd rb)) (combine ReadTime_reads bss).

(** An event that drives pin [p]. *)
Definition drives (p : Pin) (e : Event) : bool :=
  match e with
  | EvHigh q | EvLow q => q =? p
  | _ => false
  end.

(** [Run m w a evs]: from world [w] the computation [m] returns [a], its
    events are [evs], and every sample in them is the level the device
    drove. *)
Definition Run {D : Device} {A : Type} (m : M D A) (w : World D) (a : A)
           (evs : list Event) : Prop :=
  m w = (a, push w evs) /\ sampled D (dev w) evs.

(** What the chip does with one bit cell of [writeByte] and of
    [readByte], and with a run of them. *)
Definition shift_in (bs : list bool) (c : Chip) : Chip :=
  fold_left (fun c b => chip_fall (chip_rise (chip_data b c))) bs c.

Fixpoint clock_out (n : nat) (c : Chip) : Chip :=
  match n with
  | O => c
  | S k => clock_out k (chip_fall (chip_rise c))
  end.

(** The samples [bs] are the levels the chip drives after each rising
    edge. *)
Fixpoint samples_ok (bs : list bool) (c : Chip) : Prop :=
  match bs with
  | [] => True
  | b :: rest => b = chip_out (chip_rise c) /\ samples_ok rest (chip_fall (chip_rise c))
  end.

(** The three lines of a driver instance are three different pins. *)
Definition distinct_pins (d : DS1302) : Prop :=
  clk d <> dat d /\ clk d <> rst d /\ dat d <> rst d.

(** An address and value [writeRegister] can frame for the chip: bytes,
    with an even address; an address and sampled bits of a read. *)
Definition write_ok (rv : Z * Z) : Prop :=
  0 <= fst rv < 256 /\ Z.even (fst rv) = true /\ 0 <= snd rv < 256.

Definition read_ok (rb : Z * list bool) : Prop :=
  0 <= fst rb < 256 /\ Z.odd (fst rb) = true /\ length (snd rb) = 8%nat.

(** The chip after a register write. *)
Definition chip_written (c : Chip) (rv : Z * Z) : Chip :=
  mkChip false (Z.testbit (snd rv) 7) 16 16 (fst rv) (snd rv)
         (store (regs c) (fst rv) (snd rv)) (cmds c ++ [fst rv]).

(** Register contents of the simulated chip used in the examples: the
    given bytes at the six time registers, zero elsewhere. *)
Definition chip_registers (s mi h dd mo y : Z) : Z -> Z :=
  fold_left (fun m rv => store m (fst rv) (snd rv))
            [(0x80, s); (0x82, mi); (0x84, h); (0x86, dd); (0x88, mo); (0x8C, y)]
            (fun _ => 0).

(** The calls that return a timestamp. *)
Definition is_read (c : Call) : bool :=
  match c with CallReadTime => true | _ => false end.

(** The [n] consecutive integers from [i]. *)
Fixpoint zseq (i : Z) (n : nat) : list Z :=
  match n with
  | O => []
  | S n' => i :: zseq (i + 1) n'
  end.

(** A decidable check of a predicate on the [n] integers from [i]. *)
Fixpoint all_from (n : nat) (i : Z) (p : Z -> bool) : bool :=
  match n with
  | O => true
  | S k => if p i then all_from k (i + 1) p else false
  end.

Definition all_below (n : Z) (p : Z -> bool) : bool := all_from (Z.to_nat n) 0 p.

(** The two halves of [time.absDate]: the year (counted from the absolute
    epoch) and day of the year of a day number, and the month and day of the
    month of a day of the year. *)
Definition split_days (d : Z) : Z * Z :=
  let n := d / time.daysPer400Years in
  let y := 400 * n in
  let d := d - time.daysPer400Years * n in
  let n := d / time.daysPer100Years in
  let n := n - Z.shiftr n 2 in
  let y := y + 100 * n in
  let d := d - time.daysPer100Years * n in
  let n := d / time.daysPer4Years in
  let y := y + 4 * n in
  let d := d - time.daysPer4Years * n in
  let n := d / 365 in
  let n := n - Z.shiftr n 2 in
  let y := y + n in
  let d := d - 365 * n in
  (y, d).

Definition month_day (leap : bool) (yday : Z) : Z * Z :=
  if leap && (yday =? 31 + 29 - 1) then (time.February, 29)
  else
    let day := if leap && (yday >? 31 + 29 - 1) then yday - 1 else yday in
    let month := day / 31 in
    let e := time.daysBefore (month + 1) in
    let '(month, begin) :=
      if day >=? e then (month + 1, e) else (month, time.daysBefore month) in
    (month + 1, day - begin + 1).

(** The day of the year (from 0) of a calendar date. *)
Definition yday_of (leap : bool) (m dd : Z) : Z :=
  time.daysBefore (m - 1) + (if leap && (m >=? time.March) then 1 else 0) + (dd - 1).

(** The seconds since midnight of a time of day. *)
Definition clock_seconds (h mi s : Z) : Z :=
  h * time.secondsPerHour + mi * time.secondsPerMinute + s.

(** The body of [time.daysSinceEpoch] on the years since the absolute
    epoch, and the leap rule on the years of one 400-year cycle (the
    absolute zero year is 1 mod 400). *)
Definition days_before_year (y : Z) : Z :=
  let n := y / 400 in
  let y := y - 400 * n in
  let d := time.daysPer400Years * n in
  let n := y / 100 in
  let y := y - 100 * n in
  let d := d + time.daysPer100Years * n in
  let n := y / 4 in
  let y := y - 4 * n in
  let d := d + time.daysPer4Years * n in
  let n := y in
  d + 365 * n.

Definition cycle_leap (yy : Z) : bool := time.isLeap (yy + 1).

(** Boolean checks over one 400-year cycle, used to establish the
    calendar facts by evaluation. *)
Definition year_length (leap : bool) : Z := if leap then 366 else 365.

Definition check_split (r : Z) : bool :=
  let '(yy, yday) := split_days r in
  (0 <=? yy) && (yy <? 400)
  && (days_before_year yy + yday =? r)
  && (0 <=? yday) && (yday <? year_length (cycle_leap yy)).

Definition check_unsplit (k : Z) : bool :=
  let yy := k / 366 in
  let yday := k mod 366 in
  if yday <? year_length (cycle_leap yy) then
    let r := days_before_year yy + yday in
    let '(yy', yday') := split_days r in
    (0 <=? r) && (r <? 146097) && (yy' =? yy) && (yday' =? yday)
  else true.

Definition check_month_day (leap : bool) (yday : Z) : bool :=
  if yday <? year_length leap then
    let '(m, dd) := month_day leap yday in
    (1 <=? m) && (m <=? 12) && (1 <=? dd) && (dd <=? month_length leap m)
    && (yday_of leap m dd =? yday)
  else true.

Definition check_yday_of (leap : bool) (k : Z) : bool :=
  let m := k / 31 + 1 in
  let dd := k mod 31 + 1 in
  if dd <=? month_length leap m then
    let yday := yday_of leap m dd in
    let '(m', dd') := month_day leap yday in
    (0 <=? yday) && (yday <? year_length leap) && (m' =? m) && (dd' =? dd)
  else true.

(** ** Definitions for the further properties *)

(** A byte whose two nibbles are decimal digits. *)
Definition valid_bcd (b : Z) : Prop := b / 16 <= 9 /\ b mod 16 <= 9.

Definition valid_bcdb (b : Z) : bool := (b / 16 <=? 9) && (b mod 16 <=? 9).

(** The mode a pin was last configured to in a trace, if it was. *)
Definition configure (p : Pin) (acc : option PinMode) (e : Event) : option PinMode :=
  match e with
  | EvConfigure q m => if q =? p then Some m else acc
  | _ => acc
  end.

Definition last_mode (p : Pin) (tr : list Event) : option PinMode :=
  fold_left (configure p) tr None.

(** The delay a list of events spends in [time.Sleep], in nanoseconds, and
    the number of times it raises pin [p]. *)
Fixpoint sleep_total (evs : list Event) : Z :=
  match evs with
  | [] => 0
  | EvSleep ns :: rest => ns + sleep_total rest
  | _ :: rest => sleep_total rest
  end.

Fixpoint raises (p : Pin) (evs : list Event) : Z :=
  match evs with
  | [] => 0
  | EvHigh q :: rest => (if q =? p then 1 else 0) + raises p rest
  | _ :: rest => raises p rest
  end.

(** The discipline of a bidirectional line [p]: from configured mode
    [mode] on, the line is driven only while configured as an output and
    sampled only while configured as an input. *)
Fixpoint direction_ok (p : Pin) (mode : option PinMode) (evs : list Event) : bool :=
  match evs with
  | [] => true
  | e :: rest =>
      match e with
      | EvConfigure q m =>
          direction_ok p (if q =? p then Some m else mode) rest
      | EvHigh q | EvLow q =>
          (negb (q =? p) || match mode with Some PinOutput => true | _ => false end)
          && direction_ok p mode rest
      | EvGet q _ =>
          (negb (q =? p) || match mode with Some PinInput => true | _ => false end)
          && direction_ok p mode rest
      | EvSleep _ => direction_ok p mode rest
      end
  end.

(** An event that configures pin [p]. *)
Definition configures (p : Pin) (e : Event) : bool :=
  match e with
  | EvConfigure q _ => q =? p
  | _ => false
  end.

(** A data line stuck at one level: a device that ignores every event and
    always drives [b] (a missing chip, a shorted wire). *)
Definition stuck (b : bool) : Device :=
  mkDevice unit (fun _ s => s) (fun _ _ => b).

(** The register-level view of the driver and the simulated chip: the
    registers after [SetTime], the timestamp [ReadTime] returns from given
    registers, and the timestamps a sequence of calls returns. *)
Definition regs_SetTime (m : Z -> Z) (t : time.Time) : Z -> Z :=
  fold_left (fun m rv => store m (fst rv) (snd rv)) (SetTime_writes t) m.

Definition regs_ReadTime (m : Z -> Z) : time.Time :=
  assemble (decode_raw (map (fun r => m (r - 1) mod 256) ReadTime_reads)).

Fixpoint ref_calls (m : Z -> Z) (cs : list Call) : list time.Time :=
  match cs with
  | [] => []
  | CallInit :: cs' => ref_calls m cs'
  | CallSetTime t :: cs' => ref_calls (regs_SetTime m t) cs'
  | CallReadTime :: cs' => regs_ReadTime m :: ref_calls m cs'
  end.

Fixpoint regs_calls (m : Z -> Z) (cs : list Call) : Z -> Z :=
  match cs with
  | [] => m
  | CallSetTime t :: cs' => regs_calls (regs_SetTime m t) cs'
  | _ :: cs' => regs_calls m cs'
  end.

(** The calls that set the time. *)
Definition is_set (c : Call) : bool :=
  match c with CallSetTime _ => true | _ => false end.

(** * Properties *)

(** ** Bytes and bits *)

Lemma all_from_spec (p : Z -> bool) (n : nat) :
  forall i, all_from n i p = true ->
  forall z, i <= z < i + Z.of_nat n -> p z = true.
Proof.
  induction n as [|k IH]; intros i Hall z Hz.
  - simpl in Hz. lia.
  - cbn [all_from] in Hall.
    destruct (p i) eqn:Hi; [|discriminate].
    destruct (Z.eq_dec z i) as [->|Hne]; [exact Hi|].
    apply (IH (i + 1) Hall). lia.
Qed.

Lemma all_below_spec (p : Z -> bool) (n : Z) :
  all_below n p = true -> forall z, 0 <= z < n -> p z = true.
Proof.
  intros Hall z Hz. apply (all_from_spec p (Z.to_nat n) 0 Hall). lia.
Qed.

(** Every property of bytes that a boolean check establishes on all 256 of
    them. *)
Lemma byte_cases (p : Z -> bool) :
  all_below 256 p = true -> forall b, 0 <= b < 256 -> p b = true.
Proof. intros H b Hb. apply (all_below_spec p 256 H). lia. Qed.

Lemma wrap8_range (x : Z) : 0 <= wrap8 x < 256.
Proof. unfold wrap8. apply Z.mod_pos_bound. lia. Qed.

Lemma wrap8_small (x : Z) : 0 <= x < 256 -> wrap8 x = x.
Proof. intro H. unfold wrap8. apply Z.mod_small. exact H. Qed.

Lemma land_pow2 (a i : Z) :
  0 <= i -> Z.land a (2 ^ i) = if Z.testbit a i then 2 ^ i else 0.
Proof.
  intro Hi. apply Z.bits_inj'. intros n Hn.
  rewrite Z.land_spec, Z.pow2_bits_eqb by exact Hi.
  destruct (Z.eqb_spec i n) as [->|Hne].
  - rewrite andb_true_r. destruct (Z.testbit a n) eqn:Ha.
    + rewrite Z.pow2_bits_eqb, Z.eqb_refl by exact Hn. reflexivity.
    + rewrite Z.bits_0. reflexivity.
  - rewrite andb_false_r. destruct (Z.testbit a i).
    + rewrite Z.pow2_bits_eqb by exact Hi.
      symmetry. apply Z.eqb_neq. exact Hne.
    + rewrite Z.bits_0. reflexivity.
Qed.

(** The mask test of [writeByte] reads bit [i] of the byte. *)
Lemma mask_test (data i : Z) :
  0 <= i < 8 ->
  negb (Z.land data (wrap8 (Z.shiftl 1 i)) =? 0) = Z.testbit data i.
Proof.
  intro Hi.
  assert (H2 : 0 < 2 ^ i) by (apply Z.pow_pos_nonneg; lia).
  assert (Hlt : 2 ^ i < 256).
  { change 256 with (2 ^ 8). apply Z.pow_lt_mono_r; lia. }
  rewrite Z.shiftl_1_l, wrap8_small by lia.
  rewrite land_pow2 by lia.
  destruct (Z.testbit data i).
  - destruct (Z.eqb_spec (2 ^ i) 0); [lia|reflexivity].
  - reflexivity.
Qed.

Lemma byte_of_bits_range (bs : list bool) :
  0 <= byte_of_bits bs < 2 ^ Z.of_nat (length bs).
Proof.
  induction bs as [|b bs IH].
  - simpl. lia.
  - cbn [byte_of_bits length]. rewrite Nat2Z.inj_succ, Z.pow_succ_r by lia.
    destruct b; simpl Z.b2z; lia.
Qed.

Lemma byte_of_bits_testbit (bs : list bool) (i : nat) :
  Z.testbit (byte_of_bits bs) (Z.of_nat i) = nth i bs false.
Proof.
  revert i. induction bs as [|b bs IH]; intro i.
  - simpl. rewrite Z.bits_0. destruct i; reflexivity.
  - cbn [byte_of_bits]. destruct i as [|i].
    + simpl nth. change (Z.of_nat 0) with 0.
      rewrite Z.add_comm, Z.testbit_0_r. reflexivity.
    + simpl nth. rewrite Nat2Z.inj_succ, Z.add_comm.
      rewrite Z.testbit_succ_r by lia. apply IH.
Qed.

(** Sending a byte bit by bit and reassembling it gives the byte back. *)
Lemma byte_of_bits8 (b : Z) : 0 <= b < 256 -> byte_of_bits (bits8 b) = b.
Proof.
  intro Hb.
  apply Z.eqb_eq.
  apply (byte_cases (fun b => byte_of_bits (bits8 b) =? b)); [|exact Hb].
  vm_compute. reflexivity.
Qed.

Lemma bits8_length (b : Z) : length (bits8 b) = 8%nat.
Proof. reflexivity. Qed.

(** ** The calendar codec *)

Lemma bcdToDec_spec_eq (b : Z) :
  0 <= b < 256 -> bcdToDec b = bcdToDecimal_spec b.
Proof.
  intro Hb. apply Z.eqb_eq.
  apply (byte_cases (fun b => bcdToDec b =? bcdToDecimal_spec b)); [|exact Hb].
  vm_compute. reflexivity.
Qed.

Lemma decToBcd_range (v : Z) : 0 <= decToBcd v < 256.
Proof. apply wrap8_range. Qed.

Lemma bcdToDec_range (b : Z) : 0 <= bcdToDec b < 256.
Proof. apply wrap8_range. Qed.

(** On [0 .. 159] the tens digit fits the high nibble and decoding inverts
    encoding. *)
Lemma bcd_inverse (n : Z) : 0 <= n <= 159 -> bcdToDec (decToBcd n) = n.
Proof.
  intro Hn. apply Z.eqb_eq.
  apply (all_below_spec (fun n => bcdToDec (decToBcd n) =? n) 160).
  - vm_compute. reflexivity.
  - lia.
Qed.

Lemma decToBcd_spec_eq (n : Z) :
  0 <= n <= 99 -> decToBcd n = decimalToBcd_spec n.
Proof.
  intro Hn. apply Z.eqb_eq.
  apply (all_below_spec (fun n => decToBcd n =? decimalToBcd_spec n) 100).
  - vm_compute. reflexivity.
  - lia.
Qed.

(** C4: for every integer [n] with [0 <= n <= 99], decoding the BCD encoding
    of [n] gives [n] back; on that range [decToBcd] computes
    [((v / 10) << 4) | (v % 10)] (the source adds where the specification
    ors; the two agree because the low nibble of the shifted tens digit is
    zero), and on every byte [bcdToDec] computes
    [(b >> 4) * 10 + (b & 0x0F)]. *)
Theorem bcd_roundtrip (n : Z) :
  0 <= n <= 99 ->
  bcdToDec (decToBcd n) = n /\
  decToBcd n = decimalToBcd_spec n /\
  (forall b, 0 <= b < 256 -> bcdToDec b = bcdToDecimal_spec b).
Proof.
  intro Hn. split; [|split].
  - apply bcd_inverse. lia.
  - apply decToBcd_spec_eq. exact Hn.
  - intros b Hb. apply bcdToDec_spec_eq. exact Hb.
Qed.

Lemma bcd_roundtrip_witness :
  0 <= 45 <= 99 /\ bcdToDec (decToBcd 45) = 45 /\ decToBcd 45 = 0x45.
Proof.
  split; [lia|].
  destruct (bcd_roundtrip 45 ltac:(lia)) as (H1 & H2 & _).
  split; [exact H1|reflexivity].
Defined.

Example decToBcd_45 : decToBcd 45 = 0x45.
Proof. reflexivity. Qed.

Example decToBcd_0 : decToBcd 0 = 0x00.
Proof. reflexivity. Qed.

Example decToBcd_99 : decToBcd 99 = 0x99.
Proof. reflexivity. Qed.

(** Outside [0 .. 99] the encoding is defined but not a BCD byte. *)
Example decToBcd_100 : decToBcd 100 = 0xA0.
Proof. reflexivity. Qed.

Example decToBcd_160 : decToBcd 160 = 0x00.
Proof. reflexivity. Qed.

(** ** Running the driver: events and device *)

Section Traces.

Variable D : Device.
Variable d : DS1302.

Lemma dev_run_app (e1 e2 : list Event) (s : dev_state D) :
  dev_run D (e1 ++ e2) s = dev_run D e2 (dev_run D e1 s).
Proof. unfold dev_run. apply fold_left_app. Qed.

Lemma push_nil (w : World D) : push w [] = w.
Proof. destruct w. unfold push. simpl. rewrite app_nil_r. reflexivity. Qed.

Lemma push_push (w : World D) (e1 e2 : list Event) :
  push (push w e1) e2 = push w (e1 ++ e2).
Proof. unfold push. simpl. rewrite app_assoc, dev_run_app. reflexivity. Qed.

Lemma sampled_app (s : dev_state D) (e1 e2 : list Event) :
  sampled D s (e1 ++ e2) <-> sampled D s e1 /\ sampled D (dev_run D e1 s) e2.
Proof.
  revert s. induction e1 as [|e e1 IH]; intro s; simpl.
  - tauto.
  - rewrite IH. tauto.
Qed.

Lemma Run_ret {A : Type} (a : A) (w : World D) : Run (ret a) w a [].
Proof. split; [unfold ret; rewrite push_nil; reflexivity|exact I]. Qed.

Lemma Run_bind {A B : Type} (m : M D A) (k : A -> M D B) (w : World D)
      (a : A) (b : B) (e1 e2 : list Event) :
  Run m w a e1 -> Run (k a) (push w e1) b e2 -> Run (bind m k) w b (e1 ++ e2).
Proof.
  intros [H1 S1] [H2 S2]. split.
  - unfold bind. rewrite H1, H2, push_push. reflexivity.
  - apply sampled_app. split; [exact S1|exact S2].
Qed.

Lemma Run_emit (e : Event) (w : World D) :
  match e with EvGet _ _ => False | _ => True end -> Run (emit D e) w tt [e].
Proof.
  intro He. split; [reflexivity|].
  simpl. destruct e; try exact (conj I I). contradiction.
Qed.

Lemma Run_Get (p : Pin) (w : World D) :
  Run (Get D p) w (dev_level D p (dev w)) [EvGet p (dev_level D p (dev w))].
Proof. split; [reflexivity|]. simpl. split; [reflexivity|exact I]. Qed.

Lemma Run_drive (p : Pin) (b : bool) (w : World D) :
  Run (if b then High D p else Low D p) w tt [if b then EvHigh p else EvLow p].
Proof. destruct b; apply Run_emit; exact I. Qed.

(** One iteration of the loop of [writeByte]. *)
Lemma Run_write_cell (data i : Z) (w : World D) :
  0 <= i < 8 ->
  Run (bind (if negb (Z.land data (wrap8 (Z.shiftl 1 i)) =? 0)
             then High D (dat d) else Low D (dat d))
        (fun _ => bind (High D (clk d))
        (fun _ => bind (Sleep D time.Microsecond)
        (fun _ => bind (Low D (clk d))
        (fun _ => Sleep D time.Microsecond)))))
      w tt (write_cell d (Z.testbit data i)).
Proof.
  intro Hi. rewrite (mask_test data i Hi).
  unfold write_cell, clock_pulse.
  change ((if Z.testbit data i then EvHigh (dat d) else EvLow (dat d))
          :: [EvHigh (clk d); EvSleep 1000] ++ [] ++ [EvLow (clk d); EvSleep 1000])
    with ([if Z.testbit data i then EvHigh (dat d) else EvLow (dat d)]
          ++ [EvHigh (clk d)] ++ [EvSleep 1000] ++ [EvLow (clk d)] ++ [EvSleep 1000]).
  repeat (eapply Run_bind; [first [apply Run_drive | apply Run_emit; exact I]|]).
  apply Run_emit. exact I.
Qed.

Lemma writeByte_loop (data : Z) (n : nat) :
  forall (i : Z) (w : World D),
    0 <= i -> i + Z.of_nat n <= 8 ->
    Run (for_from D n i (fun i _ =>
           bind (if negb (Z.land data (wrap8 (Z.shiftl 1 i)) =? 0)
                 then High D (dat d) else Low D (dat d))
           (fun _ => bind (High D (clk d))
           (fun _ => bind (Sleep D time.Microsecond)
           (fun _ => bind (Low D (clk d))
           (fun _ => Sleep D time.Microsecond))))) tt)
        w tt (flat_map (write_cell d) (map (Z.testbit data) (zseq i n))).
Proof.
  induction n as [|n IH]; intros i w Hi Hn.
  - apply Run_ret.
  - cbn [for_from zseq map flat_map].
    eapply Run_bind.
    + apply Run_write_cell. lia.
    + apply IH; lia.
Qed.

Lemma writeByte_run (data : Z) (w : World D) :
  Run (writeByte d data) w tt (writeByte_events d data).
Proof.
  unfold writeByte, writeByte_events.
  change (EvConfigure (dat d) PinOutput :: flat_map (write_cell d) (bits8 data))
    with ([EvConfigure (dat d) PinOutput] ++ flat_map (write_cell d) (bits8 data)).
  eapply Run_bind.
  - apply Run_emit. exact I.
  - apply (writeByte_loop data 8 0); simpl; lia.
Qed.

Lemma lor_fresh_bit (acc i : Z) :
  0 <= i -> 0 <= acc < 2 ^ i -> Z.lor acc (2 ^ i) = acc + 2 ^ i.
Proof.
  intros Hi Hacc.
  pose proof (Z.add_lor_land acc (2 ^ i)) as Hadd.
  rewrite land_pow2 in Hadd by exact Hi.
  assert (Hbit : Z.testbit acc i = false).
  { apply Z.testbit_false; [exact Hi|].
    rewrite Z.div_small by exact Hacc. reflexivity. }
  rewrite Hbit in Hadd. lia.
Qed.

Lemma readByte_unfold :
  readByte d =
  bind (Configure D (dat d) (mkPinConfig PinInput))
       (fun _ => for_from D 8 0 (read_body D d) 0).
Proof. reflexivity. Qed.

Lemma Run_read_body (i data : Z) (w : World D) :
  0 <= i < 8 -> 0 <= data < 2 ^ i ->
  exists b : bool,
    Run (read_body D d i data) w (data + Z.b2z b * 2 ^ i) (read_cell d b).
Proof.
  intros Hi Hdata.
  exists (dev_level D (dat d) (dev (push w ([EvHigh (clk d)] ++ [EvSleep 1000])))).
  set (b := dev_level D (dat d) (dev (push w ([EvHigh (clk d)] ++ [EvSleep 1000])))).
  unfold read_body, read_cell, clock_pulse.
  change ([EvHigh (clk d); EvSleep 1000] ++ [EvGet (dat d) b]
          ++ [EvLow (clk d); EvSleep 1000])
    with ([EvHigh (clk d)] ++ [EvSleep 1000] ++ [EvGet (dat d) b]
          ++ [EvLow (clk d)] ++ [EvSleep 1000] ++ []).
  eapply Run_bind; [apply Run_emit; exact I|].
  eapply Run_bind; [apply Run_emit; exact I|].
  rewrite push_push.
  eapply Run_bind; [apply Run_Get|].
  fold b.
  eapply Run_bind; [apply Run_emit; exact I|].
  eapply Run_bind; [apply Run_emit; exact I|].
  assert (Hlt : 2 ^ i < 256).
  { change 256 with (2 ^ 8). apply Z.pow_lt_mono_r; lia. }
  assert (Hpos : 0 < 2 ^ i) by (apply Z.pow_pos_nonneg; lia).
  rewrite Z.shiftl_1_l, wrap8_small by lia.
  replace (if b then Z.lor data (2 ^ i) else data) with (data + Z.b2z b * 2 ^ i).
  - apply Run_ret.
  - destruct b; simpl Z.b2z.
    + rewrite lor_fresh_bit by lia. lia.
    + lia.
Qed.

Lemma readByte_loop (n : nat) :
  forall (i data : Z) (w : World D),
    0 <= i -> i + Z.of_nat n <= 8 -> 0 <= data < 2 ^ i ->
    exists bs : list bool,
      length bs = n /\
      Run (for_from D n i (read_body D d) data) w
          (data + 2 ^ i * byte_of_bits bs) (flat_map (read_cell d) bs).
Proof.
  induction n as [|n IH]; intros i data w Hi Hn Hdata.
  - exists []. split; [reflexivity|].
    simpl. replace (data + 2 ^ i * 0) with data by lia. apply Run_ret.
  - destruct (Run_read_body i data w ltac:(lia) Hdata) as [b Hb].
    assert (Hpow : 2 ^ (i + 1) = 2 * 2 ^ i).
    { rewrite Z.pow_add_r by lia. lia. }
    destruct (IH (i + 1) (data + Z.b2z b * 2 ^ i) (push w (read_cell d b)))
      as [bs [Hlen Hrun]]; [lia|lia| |].
    { rewrite Hpow. destruct b; simpl Z.b2z; lia. }
    exists (b :: bs). split; [simpl; rewrite Hlen; reflexivity|].
    cbn [for_from flat_map byte_of_bits].
    replace (data + 2 ^ i * (Z.b2z b + 2 * byte_of_bits bs))
      with (data + Z.b2z b * 2 ^ i + 2 ^ (i + 1) * byte_of_bits bs)
      by (rewrite Hpow; ring).
    eapply Run_bind; [exact Hb|exact Hrun].
Qed.

Lemma readByte_run (w : World D) :
  exists bs : list bool,
    length bs = 8%nat /\
    Run (readByte d) w (byte_of_bits bs) (readByte_events d bs).
Proof.
  destruct (readByte_loop 8 0 0 (push w [EvConfigure (dat d) PinInput]))
    as [bs [Hlen Hrun]]; [lia|simpl; lia|simpl; lia|].
  exists bs. split; [exact Hlen|].
  rewrite readByte_unfold. unfold readByte_events.
  change (EvConfigure (dat d) PinInput :: flat_map (read_cell d) bs)
    with ([EvConfigure (dat d) PinInput] ++ flat_map (read_cell d) bs).
  eapply Run_bind; [apply Run_emit; exact I|].
  replace (byte_of_bits bs) with (0 + 2 ^ 0 * byte_of_bits bs)
    by (rewrite Z.pow_0_r; lia).
  exact Hrun.
Qed.

Lemma writeRegister_run (reg value : Z) (w : World D) :
  Run (writeRegister d reg value) w tt (write_frame d (reg, value)).
Proof.
  unfold writeRegister, write_frame. simpl fst. simpl snd.
  eapply Run_bind; [apply Run_emit; exact I|].
  eapply Run_bind; [apply writeByte_run|].
  eapply Run_bind; [apply writeByte_run|].
  apply Run_emit. exact I.
Qed.

Lemma readRegister_run (reg : Z) (w : World D) :
  exists bs : list bool,
    length bs = 8%nat /\
    Run (readRegister d reg) w (byte_of_bits bs) (read_frame d reg bs).
Proof.
  destruct (readByte_run (push (push w [EvHigh (rst d)]) (writeByte_events d reg)))
    as [bs [Hlen Hrun]].
  exists bs. split; [exact Hlen|].
  unfold readRegister, read_frame.
  eapply Run_bind; [apply Run_emit; exact I|].
  eapply Run_bind; [apply writeByte_run|].
  eapply Run_bind; [exact Hrun|].
  replace [EvLow (rst d)] with ([EvLow (rst d)] ++ []) by reflexivity.
  eapply Run_bind; [apply Run_emit; exact I|].
  apply Run_ret.
Qed.

Lemma SetTime_run (t : time.Time) (w : World D) :
  Run (SetTime d t) w tt (flat_map (write_frame d) (SetTime_writes t)).
Proof.
  unfold SetTime, SetTime_writes. cbn [flat_map].
  repeat (eapply Run_bind; [apply writeRegister_run|]).
  rewrite app_nil_r. apply writeRegister_run.
Qed.

Lemma ReadTime_decode_run (w : World D) :
  exists bss : list (list bool),
    length bss = 6%nat /\
    Forall (fun bs => length bs = 8%nat) bss /\
    Run (ReadTime_decode d) w (decode_raw (map byte_of_bits bss))
        (ReadTime_events d bss).
Proof.
  unfold ReadTime_decode.
  destruct (readRegister_run DS1302_SECONDS_READ w) as [b1 [L1 R1]].
  destruct (readRegister_run DS1302_MINUTES_READ (push w (read_frame d 0x81 b1)))
    as [b2 [L2 R2]].
  destruct (readRegister_run DS1302_HOURS_READ
              (push (push w (read_frame d 0x81 b1)) (read_frame d 0x83 b2)))
    as [b3 [L3 R3]].
  destruct (readRegister_run DS1302_DATE_READ
              (push (push (push w (read_frame d 0x81 b1)) (read_frame d 0x83 b2))
                    (read_frame d 0x85 b3)))
    as [b4 [L4 R4]].
  destruct (readRegister_run DS1302_MONTH_READ
              (push (push (push (push w (read_frame d 0x81 b1)) (read_frame d 0x83 b2))
                          (read_frame d 0x85 b3)) (read_frame d 0x87 b4)))
    as [b5 [L5 R5]].
  destruct (readRegister_run DS1302_YEAR_READ
              (push (push (push (push (push w (read_frame d 0x81 b1))
                                      (read_frame d 0x83 b2))
                                (read_frame d 0x85 b3)) (read_frame d 0x87 b4))
                    (read_frame d 0x89 b5)))
    as [b6 [L6 R6]].
  exists [b1; b2; b3; b4; b5; b6].
  split; [reflexivity|]. split; [repeat constructor; assumption|].
  unfold ReadTime_events, ReadTime_reads.
  cbn [combine flat_map fst snd map].
  eapply Run_bind; [exact R1|].
  eapply Run_bind; [exact R2|].
  eapply Run_bind; [exact R3|].
  eapply Run_bind; [exact R4|].
  eapply Run_bind; [exact R5|].
  eapply Run_bind; [exact R6|].
  apply Run_ret.
Qed.

Lemma ReadTime_run (w : World D) :
  exists bss : list (list bool),
    length bss = 6%nat /\
    Forall (fun bs => length bs = 8%nat) bss /\
    Run (ReadTime d) w (assemble (decode_raw (map byte_of_bits bss)))
        (ReadTime_events d bss).
Proof.
  destruct (ReadTime_decode_run w) as [bss [L [F R]]].
  exists bss. split; [exact L|]. split; [exact F|].
  unfold ReadTime.
  rewrite <- (app_nil_r (ReadTime_events d bss)).
  eapply Run_bind; [exact R|apply Run_ret].
Qed.

Lemma Init_run (w : World D) :
  Run (Init d) w tt
      [EvConfigure (clk d) PinOutput; EvConfigure (dat d) PinOutput;
       EvConfigure (rst d) PinOutput; EvLow (clk d); EvLow (rst d); EvLow (dat d)].
Proof.
  unfold Init.
  change [EvConfigure (clk d) PinOutput; EvConfigure (dat d) PinOutput;
          EvConfigure (rst d) PinOutput; EvLow (clk d); EvLow (rst d); EvLow (dat d)]
    with ([EvConfigure (clk d) PinOutput] ++ [EvConfigure (dat d) PinOutput]
          ++ [EvConfigure (rst d) PinOutput] ++ [EvLow (clk d)] ++ [EvLow (rst d)]
          ++ [EvLow (dat d)]).
  repeat (eapply Run_bind; [apply Run_emit; exact I|]).
  apply Run_emit. exact I.
Qed.

(** ** Line levels *)

Lemma line_level_app (p : Pin) (a b : list Event) :
  line_level p (a ++ b) = fold_left (drive p) b (line_level p a).
Proof. unfold line_level. apply fold_left_app. Qed.

Lemma fold_flat_map_const {X : Type} (p : Pin) (g : X -> list Event) (c : option bool) :
  (forall x acc, fold_left (drive p) (g x) acc = c) ->
  forall l acc, l <> [] -> fold_left (drive p) (flat_map g l) acc = c.
Proof.
  intros Hg l. induction l as [|x l IH]; intros acc Hne; [congruence|].
  cbn [flat_map]. rewrite fold_left_app, Hg.
  destruct l as [|y l]; [reflexivity|].
  apply IH. discriminate.
Qed.

Lemma write_cell_clk_low (b : bool) (acc : option bool) :
  fold_left (drive (clk d)) (write_cell d b) acc = Some false.
Proof.
  unfold write_cell, clock_pulse. destruct b; simpl; rewrite Z.eqb_refl; reflexivity.
Qed.

Lemma read_cell_clk_low (b : bool) (acc : option bool) :
  fold_left (drive (clk d)) (read_cell d b) acc = Some false.
Proof.
  unfold read_cell, clock_pulse. simpl. rewrite Z.eqb_refl. reflexivity.
Qed.

Lemma writeByte_clk_low (data : Z) (acc : option bool) :
  fold_left (drive (clk d)) (writeByte_events d data) acc = Some false.
Proof.
  unfold writeByte_events. cbn [fold_left].
  apply fold_flat_map_const; [apply write_cell_clk_low|discriminate].
Qed.

Lemma readByte_clk_low (bs : list bool) (acc : option bool) :
  length bs = 8%nat ->
  fold_left (drive (clk d)) (readByte_events d bs) acc = Some false.
Proof.
  intro Hlen. unfold readByte_events. cbn [fold_left].
  apply fold_flat_map_const; [apply read_cell_clk_low|].
  destruct bs; [discriminate|discriminate].
Qed.

(** After a transfer that left the clock low, lowering chip-select leaves
    both lines low. *)
Lemma frame_end_idle (tr body : list Event) :
  (forall acc, fold_left (drive (clk d)) body acc = Some false) ->
  idle d (tr ++ body ++ [EvLow (rst d)]).
Proof.
  intro Hbody. unfold idle.
  rewrite !app_assoc, !line_level_app. cbn [fold_left drive].
  rewrite Z.eqb_refl. split; [|reflexivity].
  rewrite <- line_level_app, line_level_app, Hbody.
  destruct (rst d =? clk d); reflexivity.
Qed.

Lemma write_frame_idle (tr : list Event) (rv : Z * Z) :
  idle d (tr ++ write_frame d rv).
Proof.
  unfold write_frame.
  replace (tr ++ [EvHigh (rst d)] ++ writeByte_events d (fst rv)
              ++ writeByte_events d (snd rv) ++ [EvLow (rst d)])
    with (tr ++ ([EvHigh (rst d)] ++ writeByte_events d (fst rv)
                   ++ writeByte_events d (snd rv)) ++ [EvLow (rst d)])
    by (rewrite <- !app_assoc; reflexivity).
  apply frame_end_idle. intro acc.
  rewrite !fold_left_app. apply writeByte_clk_low.
Qed.

Lemma read_frame_idle (tr : list Event) (reg : Z) (bs : list bool) :
  length bs = 8%nat -> idle d (tr ++ read_frame d reg bs).
Proof.
  intro Hlen. unfold read_frame.
  replace (tr ++ [EvHigh (rst d)] ++ writeByte_events d reg
              ++ readByte_events d bs ++ [EvLow (rst d)])
    with (tr ++ ([EvHigh (rst d)] ++ writeByte_events d reg
                   ++ readByte_events d bs) ++ [EvLow (rst d)])
    by (rewrite <- !app_assoc; reflexivity).
  apply frame_end_idle. intro acc.
  rewrite !fold_left_app. apply readByte_clk_low. exact Hlen.
Qed.

Lemma idle_app_frames {X : Type} (g : X -> list Event) (tr : list Event) :
  (forall x tr', idle d (tr' ++ g x)) ->
  forall l, l <> [] -> idle d (tr ++ flat_map g l).
Proof.
  intros Hg l. revert tr. induction l as [|x l IH]; intros tr Hne; [congruence|].
  cbn [flat_map]. destruct l as [|y l].
  - simpl. rewrite app_nil_r. apply Hg.
  - rewrite app_assoc. apply IH. discriminate.
Qed.

Lemma Init_idle (tr : list Event) :
  idle d (tr ++ [EvConfigure (clk d) PinOutput; EvConfigure (dat d) PinOutput;
                 EvConfigure (rst d) PinOutput; EvLow (clk d); EvLow (rst d);
                 EvLow (dat d)]).
Proof.
  unfold idle. rewrite !line_level_app. cbn [fold_left drive].
  rewrite !Z.eqb_refl.
  destruct (rst d =? clk d), (dat d =? clk d), (dat d =? rst d); split; reflexivity.
Qed.

(** A level driven high stays high while no later event drives the pin. *)
Lemma level_held (p : Pin) (body : list Event) (acc : option bool) :
  Forall (fun e => drives p e = false) body ->
  fold_left (drive p) body acc = acc.
Proof.
  intro H. revert acc. induction H as [|e body He _ IH]; intro acc; [reflexivity|].
  cbn [fold_left]. rewrite IH.
  destruct e; simpl in *; try reflexivity; rewrite He; reflexivity.
Qed.

Lemma Forall_firstn {X : Type} (P : X -> Prop) (n : nat) (l : list X) :
  Forall P l -> Forall P (firstn n l).
Proof.
  intro H. revert n. induction H as [|x l Hx _ IH]; intro n.
  - rewrite firstn_nil. constructor.
  - destruct n; [constructor|]. simpl. constructor; [exact Hx|apply IH].
Qed.

(** Strictly inside a frame that opens by raising [p], closes by lowering
    it and does not drive it in between, [p] is high. *)
Lemma inside_frame (p : Pin) (tr body : list Event) (n : nat) :
  Forall (fun e => drives p e = false) body ->
  (0 < n < length ([EvHigh p] ++ body ++ [EvLow p]))%nat ->
  line_level p (tr ++ firstn n ([EvHigh p] ++ body ++ [EvLow p])) = Some true.
Proof.
  intros Hbody Hn.
  rewrite !length_app in Hn. simpl in Hn.
  destruct n as [|m]; [lia|].
  cbn [app firstn].
  rewrite firstn_app.
  replace (m - length body)%nat with 0%nat by lia.
  rewrite firstn_O, app_nil_r.
  rewrite line_level_app. cbn [fold_left drive]. rewrite Z.eqb_refl.
  apply level_held. apply Forall_firstn. exact Hbody.
Qed.

Lemma writeByte_undriven (p : Pin) (data : Z) :
  p <> clk d -> p <> dat d ->
  Forall (fun e => drives p e = false) (writeByte_events d data).
Proof.
  intros Hc Hd.
  assert (Ec : (clk d =? p) = false) by (apply Z.eqb_neq; congruence).
  assert (Ed : (dat d =? p) = false) by (apply Z.eqb_neq; congruence).
  unfold writeByte_events. constructor; [reflexivity|].
  apply Forall_flat_map. apply Forall_forall. intros b _.
  unfold write_cell, clock_pulse.
  destruct b; repeat constructor; simpl; assumption.
Qed.

Lemma readByte_undriven (p : Pin) (bs : list bool) :
  p <> clk d ->
  Forall (fun e => drives p e = false) (readByte_events d bs).
Proof.
  intros Hc.
  assert (Ec : (clk d =? p) = false) by (apply Z.eqb_neq; congruence).
  unfold readByte_events. constructor; [reflexivity|].
  apply Forall_flat_map. apply Forall_forall. intros b _.
  unfold read_cell, clock_pulse.
  repeat constructor; simpl; assumption.
Qed.

(** ** The bit-serial transport *)

(** C7: for every 8-bit value, [writeByte] first configures the data line
    as an output and then, for bit index 0 through 7 (least-significant
    first), drives the data line to that bit's value, raises the clock,
    sleeps one microsecond, lowers the clock and sleeps one microsecond;
    [readByte] configures the data line as an input and, for bit index 0
    through 7, raises the clock, sleeps, samples the data line, lowers the
    clock and sleeps, and returns the byte whose bit [i] is the [i]-th
    sample. *)
Theorem transport_bit_protocol (data : Z) (w : World D) :
  writeByte d data w =
    (tt, push w (EvConfigure (dat d) PinOutput ::
                 flat_map (fun i =>
                   [if Z.testbit data i then EvHigh (dat d) else EvLow (dat d);
                    EvHigh (clk d); EvSleep time.Microsecond;
                    EvLow (clk d); EvSleep time.Microsecond])
                 [0; 1; 2; 3; 4; 5; 6; 7])) /\
  time.Microsecond = 1000 /\
  exists bs : list bool,
    length bs = 8%nat /\
    readByte d w =
      (byte_of_bits bs,
       push w (EvConfigure (dat d) PinInput ::
               flat_map (fun b =>
                 [EvHigh (clk d); EvSleep time.Microsecond; EvGet (dat d) b;
                  EvLow (clk d); EvSleep time.Microsecond]) bs)) /\
    sampled D (dev w) (readByte_events d bs) /\
    forall i : nat, Z.testbit (byte_of_bits bs) (Z.of_nat i) = nth i bs false.
Proof.
  split; [|split; [reflexivity|]].
  - destruct (writeByte_run data w) as [H _]. exact H.
  - destruct (readByte_run w) as [bs [Hlen [H S]]].
    exists bs. split; [exact Hlen|]. split; [exact H|]. split; [exact S|].
    intro i. apply byte_of_bits_testbit.
Qed.

(** ** The register protocol *)

(** C8: every single-register access is bracketed in its own chip-select
    pulse.  The events of [writeRegister] are: chip-select high, the
    transfer of the address byte by [writeByte], the transfer of the data
    byte by [writeByte], chip-select low; those of [readRegister] are:
    chip-select high, the address byte by [writeByte], one byte received by
    [readByte], chip-select low.  With chip-select on a line of its own, at
    every point strictly inside either frame, and so at every event of a
    byte transfer, chip-select is high. *)
Theorem register_access_bracketed (reg value : Z) (w : World D) :
  writeRegister d reg value w =
    (tt, push w ([EvHigh (rst d)] ++ writeByte_events d reg
                 ++ writeByte_events d value ++ [EvLow (rst d)])) /\
  (exists bs : list bool,
     length bs = 8%nat /\
     readRegister d reg w =
       (byte_of_bits bs,
        push w ([EvHigh (rst d)] ++ writeByte_events d reg
                ++ readByte_events d bs ++ [EvLow (rst d)])) /\
     (rst d <> clk d -> rst d <> dat d ->
      forall n : nat,
        (0 < n < length (read_frame d reg bs))%nat ->
        line_level (rst d) (trace w ++ firstn n (read_frame d reg bs)) = Some true)) /\
  (rst d <> clk d -> rst d <> dat d ->
   forall n : nat,
     (0 < n < length (write_frame d (reg, value)))%nat ->
     line_level (rst d) (trace w ++ firstn n (write_frame d (reg, value))) = Some true).
Proof.
  split; [|split].
  - destruct (writeRegister_run reg value w) as [H _]. exact H.
  - destruct (readRegister_run reg w) as [bs [Hlen [H _]]].
    exists bs. split; [exact Hlen|]. split; [exact H|].
    intros Hc Hd n Hn. unfold read_frame in *.
    rewrite (app_assoc (writeByte_events d reg)) in *.
    apply inside_frame; [|exact Hn].
    apply Forall_app. split.
    + apply writeByte_undriven; assumption.
    + apply readByte_undriven; assumption.
  - intros Hc Hd n Hn. unfold write_frame in *. simpl fst in *. simpl snd in *.
    rewrite (app_assoc (writeByte_events d reg)) in *.
    apply inside_frame; [|exact Hn].
    apply Forall_app. split; apply writeByte_undriven; assumption.
Qed.

(** ** The driver facade: traces *)

(** C2: for every input timestamp, the register writes issued by one
    [SetTime] call are exactly eight write frames: first address 0x8E with
    value 0x00, last address 0x8E with value 0x80, and in between, in this
    order, seconds (0x80), minutes (0x82), hours (0x84), date (0x86), month
    (0x88) and year (0x8C), each with the BCD encoding of its field. *)
Theorem SetTime_write_protect_bracket (t : time.Time) (w : World D) :
  SetTime d t w = (tt, push w (flat_map (write_frame d) (SetTime_writes t))) /\
  SetTime_writes t =
    [(0x8E, 0x00);
     (0x80, decToBcd (wrap8 (time.Second t)));
     (0x82, decToBcd (wrap8 (time.Minute t)));
     (0x84, decToBcd (wrap8 (time.Hour t)));
     (0x86, decToBcd (wrap8 (time.Day t)));
     (0x88, decToBcd (wrap8 (time.Month t)));
     (0x8C, decToBcd (wrap8 (time.Year t - 2000)));
     (0x8E, 0x80)] /\
  length (SetTime_writes t) = 8%nat /\
  forall rv : Z * Z,
    write_frame d rv =
    [EvHigh (rst d)] ++ writeByte_events d (fst rv) ++ writeByte_events d (snd rv)
    ++ [EvLow (rst d)].
Proof.
  split; [|split; [reflexivity|split; [reflexivity|reflexivity]]].
  destruct (SetTime_run t w) as [H _]. exact H.
Qed.

(** ** Idle lines *)

Lemma call_idle (c : Call) (w : World D) :
  match c with
  | CallInit => idle d (trace (snd (Init d w)))
  | CallSetTime t => idle d (trace (snd (SetTime d t w)))
  | CallReadTime => idle d (trace (snd (ReadTime d w)))
  end.
Proof.
  destruct c as [|t|].
  - destruct (Init_run w) as [H _]. rewrite H. apply Init_idle.
  - destruct (SetTime_run t w) as [H _]. rewrite H. cbn [snd push trace].
    apply idle_app_frames; [intros; apply write_frame_idle|discriminate].
  - destruct (ReadTime_run w) as [bss [L [F [H _]]]]. rewrite H.
    cbn [snd push trace]. clear H. unfold ReadTime_events, ReadTime_reads.
    destruct bss as [|b1 [|b2 [|b3 [|b4 [|b5 [|b6 [|]]]]]]]; try discriminate L.
    cbn [combine flat_map fst snd]. rewrite app_nil_r, !app_assoc.
    apply read_frame_idle.
    repeat match goal with H : Forall _ (_ :: _) |- _ => inversion_clear H end.
    assumption.
Qed.

(** From any world, the calls of the hardware build leave the lines idle
    when at least one call is made. *)
Lemma run_calls_idle (cs : list Call) :
  forall w : World D,
    cs <> [] -> idle d (trace (snd (run_calls (hardware d) cs w))).
Proof.
  assert (Hrest : forall cs (w : World D),
             idle d (trace w) -> idle d (trace (snd (run_calls (hardware d) cs w)))).
  { intro cs0. induction cs0 as [|c cs0 IH]; intros w Hw; [exact Hw|].
    pose proof (call_idle c w) as Hc.
    destruct c as [|t|]; cbn [run_calls hardware do_Init do_SetTime do_ReadTime];
      unfold bind.
    - destruct (Init d w) as [u w']. apply IH. exact Hc.
    - destruct (SetTime d t w) as [u w']. apply IH. exact Hc.
    - destruct (ReadTime d w) as [r w']. specialize (IH w' Hc).
      destruct (run_calls (hardware d) cs0 w') as [ts w'']. exact IH. }
  destruct cs as [|c cs]; intros w Hne; [congruence|].
  pose proof (call_idle c w) as Hc.
  destruct c as [|t|]; cbn [run_calls hardware do_Init do_SetTime do_ReadTime];
    unfold bind.
  - destruct (Init d w) as [u w']. apply Hrest. exact Hc.
  - destruct (SetTime d t w) as [u w']. apply Hrest. exact Hc.
  - destruct (ReadTime d w) as [r w']. specialize (Hrest cs w' Hc).
    destruct (run_calls (hardware d) cs w') as [ts w'']. exact Hrest.
Qed.

(** C10: after [Init] and after every complete register transaction both
    the clock line and the chip-select line are left low: every
    [writeByte] and [readByte] ends with the clock low, [writeRegister] and
    [readRegister] end with clock and chip-select low, and so do [SetTime]
    and [ReadTime]; hence after [Init] every later public operation starts
    from, and restores, the idle line state. *)
Theorem lines_left_idle (w : World D) :
  idle d (trace (snd (Init d w))) /\
  (forall data, line_level (clk d) (trace (snd (writeByte d data w))) = Some false) /\
  line_level (clk d) (trace (snd (readByte d w))) = Some false /\
  (forall reg value, idle d (trace (snd (writeRegister d reg value w)))) /\
  (forall reg, idle d (trace (snd (readRegister d reg w)))) /\
  (forall t, idle d (trace (snd (SetTime d t w)))) /\
  idle d (trace (snd (ReadTime d w))) /\
  (forall cs, idle d (trace (snd (run_calls (hardware d) (CallInit :: cs) w)))).
Proof.
  split; [apply (call_idle CallInit w)|].
  split.
  { intro data. destruct (writeByte_run data w) as [H _]. rewrite H.
    cbn [snd push trace]. rewrite line_level_app. apply writeByte_clk_low. }
  split.
  { destruct (readByte_run w) as [bs [Hlen [H _]]]. rewrite H. cbn [snd push trace].
    rewrite line_level_app. apply readByte_clk_low. exact Hlen. }
  split.
  { intros reg value. destruct (writeRegister_run reg value w) as [H _]. rewrite H.
    cbn [snd push trace]. apply write_frame_idle. }
  split.
  { intro reg. destruct (readRegister_run reg w) as [bs [Hlen [H _]]]. rewrite H.
    cbn [snd push trace]. apply read_frame_idle. exact Hlen. }
  split; [intro t; apply (call_idle (CallSetTime t) w)|].
  split; [apply (call_idle CallReadTime w)|].
  intro cs. apply run_calls_idle. discriminate.
Qed.

End Traces.

(** ** The calendar of package [time] *)

Example Date_unix : time.Unix (time.Date 2024 8 5 21 0 0 0) = 1722891600.
Proof. vm_compute. reflexivity. Qed.

(** October 32 is November 1. *)
Example Date_october_32 :
  fields (time.Date 2023 10 32 0 0 0 0) = [2023; 11; 1; 0; 0; 0].
Proof. vm_compute. reflexivity. Qed.

Example Date_leap_day :
  fields (time.Date 2024 2 29 23 59 59 0) = [2024; 2; 29; 23; 59; 59] /\
  fields (time.Date 2100 2 29 0 0 0 0) = [2100; 3; 1; 0; 0; 0].
Proof. vm_compute. split; reflexivity. Qed.

Lemma absDate_split (a : Z) :
  time.absDate a =
  let '(y, yday) := split_days (a / time.secondsPerDay) in
  let year := y + time.absoluteZeroYear in
  let '(m, dd) := month_day (time.isLeap year) yday in
  (year, m, dd, yday).
Proof.
  unfold time.absDate, split_days, month_day. cbv zeta.
  match goal with
  | |- context [time.isLeap ?y] => destruct (time.isLeap y)
  end; cbn [andb].
  - match goal with
    | |- context [?x =? 31 + 29 - 1] => destruct (x =? 31 + 29 - 1)
    end; [reflexivity|].
    match goal with
    | |- context [if ?c then _ else _] => destruct c
    end; reflexivity.
  - match goal with
    | |- context [if ?c then _ else _] => destruct c
    end; reflexivity.
Qed.

Lemma norm_in_range (hi lo base : Z) :
  0 <= lo < base -> time.norm hi lo base = (hi, lo).
Proof.
  intro H. unfold time.norm.
  destruct (Z.ltb_spec lo 0); [lia|].
  destruct (Z.geb_spec lo base); [lia|reflexivity].
Qed.

Lemma isLeap_mod (y : Z) :
  time.isLeap y =
  (y mod 4 =? 0) && (negb (y mod 100 =? 0) || (y mod 400 =? 0)).
Proof.
  unfold time.isLeap.
  assert (E : forall b, b <> 0 -> (Z.rem y b =? 0) = (y mod b =? 0)).
  { intros b Hb. destruct (Z.eqb_spec (Z.rem y b) 0) as [H|H];
      destruct (Z.eqb_spec (y mod b) 0) as [H'|H']; try reflexivity.
    - apply Z.rem_mod_eq_0 in H; [contradiction|exact Hb].
    - apply Z.rem_mod_eq_0 in H'; [contradiction|exact Hb]. }
  rewrite !E by lia. reflexivity.
Qed.

Lemma isLeap_cycle (y q : Z) : time.isLeap (y + 400 * q) = time.isLeap y.
Proof.
  rewrite !isLeap_mod.
  replace (y + 400 * q) with (y + (100 * q) * 4) at 1 by ring.
  replace (y + 400 * q) with (y + (4 * q) * 100) at 1 by ring.
  replace (y + 400 * q) with (y + q * 400) by ring.
  rewrite !Z.mod_add by lia. reflexivity.
Qed.

Lemma split_days_cycle (d : Z) :
  split_days d =
  (400 * (d / 146097) + fst (split_days (d mod 146097)),
   snd (split_days (d mod 146097))).
Proof.
  pose proof (Z.mod_pos_bound d 146097 ltac:(lia)) as Hr.
  pose proof (Z.div_mod d 146097 ltac:(lia)) as Hd.
  unfold split_days, time.daysPer400Years, time.daysPer100Years, time.daysPer4Years.
  cbv zeta. cbn [fst snd].
  change (365 * 400 + 97) with 146097.
  replace (d - 146097 * (d / 146097)) with (d mod 146097) by lia.
  rewrite (Z.div_small (d mod 146097) 146097) by exact Hr.
  replace (d mod 146097 - 146097 * 0) with (d mod 146097) by lia.
  f_equal. ring.
Qed.

(** The calendar facts of one 400-year cycle, by evaluation on each of
    its 146097 days. *)
Lemma split_cycle_checked : all_below 146097 check_split = true.
Proof. vm_cast_no_check (eq_refl true). Qed.

Lemma unsplit_cycle_checked : all_below (400 * 366) check_unsplit = true.
Proof. vm_cast_no_check (eq_refl true). Qed.

Lemma month_day_checked (leap : bool) : all_below 366 (check_month_day leap) = true.
Proof. destruct leap; vm_compute; reflexivity. Qed.

Lemma yday_of_checked (leap : bool) : all_below (12 * 31) (check_yday_of leap) = true.
Proof. destruct leap; vm_compute; reflexivity. Qed.

Lemma days_before_year_cycle (q yy : Z) :
  0 <= yy < 400 ->
  days_before_year (400 * q + yy) = 146097 * q + days_before_year yy.
Proof.
  intro Hyy. unfold days_before_year. cbv zeta.
  replace (400 * q + yy) with (yy + q * 400) by ring.
  rewrite Z.div_add by lia.
  rewrite (Z.div_small yy 400) by exact Hyy.
  replace (yy + q * 400 - 400 * (0 + q)) with yy by ring.
  replace (yy - 400 * 0) with yy by ring.
  unfold time.daysPer400Years. ring.
Qed.

Lemma daysSinceEpoch_eq (y : Z) :
  time.daysSinceEpoch y = days_before_year (y - time.absoluteZeroYear).
Proof. reflexivity. Qed.

Lemma isLeap_absolute (q yy : Z) :
  time.isLeap (400 * q + yy + time.absoluteZeroYear) = cycle_leap yy.
Proof.
  unfold cycle_leap.
  replace (400 * q + yy + time.absoluteZeroYear)
    with (yy + 1 + 400 * (q - 730692556)) by (unfold time.absoluteZeroYear; ring).
  apply isLeap_cycle.
Qed.

(** Every day number splits into a 400-year cycle, a year of the cycle and
    a day of that year. *)
Lemma split_days_spec (d : Z) :
  exists q yy yday,
    split_days d = (400 * q + yy, yday) /\
    0 <= yy < 400 /\
    0 <= yday < year_length (cycle_leap yy) /\
    146097 * q + days_before_year yy + yday = d.
Proof.
  pose proof (Z.mod_pos_bound d 146097 ltac:(lia)) as Hr.
  pose proof (Z.div_mod d 146097 ltac:(lia)) as Hd.
  pose proof (all_below_spec check_split 146097 split_cycle_checked
                             (d mod 146097) Hr) as Hc.
  rewrite split_days_cycle.
  unfold check_split in Hc.
  destruct (split_days (d mod 146097)) as [yy yday].
  exists (d / 146097), yy, yday. cbn [fst snd].
  apply andb_prop in Hc. destruct Hc as [Hc H5].
  apply andb_prop in Hc. destruct Hc as [Hc H4].
  apply andb_prop in Hc. destruct Hc as [Hc H3].
  apply andb_prop in Hc. destruct Hc as [H1 H2].
  apply Z.leb_le in H1, H4. apply Z.ltb_lt in H2, H5. apply Z.eqb_eq in H3.
  repeat split; try assumption. lia.
Qed.

(** Conversely a year of the cycle and a day of that year are recovered
    from their day number. *)
Lemma split_days_inverse (q yy yday : Z) :
  0 <= yy < 400 ->
  0 <= yday < year_length (cycle_leap yy) ->
  split_days (146097 * q + days_before_year yy + yday) = (400 * q + yy, yday).
Proof.
  intros Hyy Hyday.
  assert (Hlen : year_length (cycle_leap yy) <= 366)
    by (unfold year_length; destruct (cycle_leap yy); lia).
  pose proof (all_below_spec check_unsplit (400 * 366) unsplit_cycle_checked
                             (yy * 366 + yday) ltac:(lia)) as Hc.
  unfold check_unsplit in Hc. cbv zeta in Hc.
  replace ((yy * 366 + yday) / 366) with yy in Hc
    by (apply Z.div_unique with yday; lia).
  replace ((yy * 366 + yday) mod 366) with yday in Hc
    by (apply Z.mod_unique with yy; lia).
  destruct (Z.ltb_spec yday (year_length (cycle_leap yy))) as [_|]; [|lia].
  set (r := days_before_year yy + yday) in *.
  destruct (split_days r) as [yy' yday'] eqn:Hs.
  apply andb_prop in Hc. destruct Hc as [Hc H4].
  apply andb_prop in Hc. destruct Hc as [Hc H3].
  apply andb_prop in Hc. destruct Hc as [H1 H2].
  apply Z.leb_le in H1. apply Z.ltb_lt in H2. apply Z.eqb_eq in H3, H4.
  subst yy' yday'.
  rewrite split_days_cycle.
  replace (146097 * q + days_before_year yy + yday) with (r + q * 146097)
    by (unfold r; ring).
  rewrite Z.div_add by lia. rewrite Z.mod_add by lia.
  rewrite Z.div_small by lia. rewrite Z.mod_small by lia.
  rewrite Hs. reflexivity.
Qed.

Lemma month_day_spec (leap : bool) (yday : Z) :
  0 <= yday < year_length leap ->
  exists m dd,
    month_day leap yday = (m, dd) /\
    1 <= m <= 12 /\ 1 <= dd <= month_length leap m /\
    yday_of leap m dd = yday.
Proof.
  intro Hy.
  assert (Hlen : year_length leap <= 366) by (destruct leap; simpl; lia).
  pose proof (all_below_spec _ 366 (month_day_checked leap) yday ltac:(lia)) as Hc.
  unfold check_month_day in Hc.
  destruct (Z.ltb_spec yday (year_length leap)) as [_|]; [|lia].
  destruct (month_day leap yday) as [m dd].
  exists m, dd.
  apply andb_prop in Hc. destruct Hc as [Hc H5].
  apply andb_prop in Hc. destruct Hc as [Hc H4].
  apply andb_prop in Hc. destruct Hc as [Hc H3].
  apply andb_prop in Hc. destruct Hc as [H1 H2].
  apply Z.leb_le in H1, H2, H3, H4. apply Z.eqb_eq in H5.
  repeat split; assumption.
Qed.

Lemma month_day_inverse (leap : bool) (m dd : Z) :
  1 <= m <= 12 -> 1 <= dd <= month_length leap m ->
  month_day leap (yday_of leap m dd) = (m, dd) /\
  0 <= yday_of leap m dd < year_length leap.
Proof.
  intros Hm Hdd.
  assert (Hlen : month_length leap m <= 31).
  { assert (E : m = 1 \/ m = 2 \/ m = 3 \/ m = 4 \/ m = 5 \/ m = 6 \/ m = 7 \/ m = 8
                \/ m = 9 \/ m = 10 \/ m = 11 \/ m = 12) by lia.
    destruct leap; repeat (destruct E as [->|E]; [vm_compute; discriminate|]);
      subst m; vm_compute; discriminate. }
  pose proof (all_below_spec _ (12 * 31) (yday_of_checked leap)
                             ((m - 1) * 31 + (dd - 1)) ltac:(lia)) as Hc.
  unfold check_yday_of in Hc. cbv zeta in Hc.
  replace (((m - 1) * 31 + (dd - 1)) / 31 + 1) with m in Hc
    by (assert (((m - 1) * 31 + (dd - 1)) / 31 = m - 1)
          by (symmetry; apply Z.div_unique with (dd - 1); lia); lia).
  replace (((m - 1) * 31 + (dd - 1)) mod 31 + 1) with dd in Hc
    by (assert (((m - 1) * 31 + (dd - 1)) mod 31 = dd - 1)
          by (symmetry; apply Z.mod_unique with (m - 1); lia); lia).
  destruct (Z.leb_spec dd (month_length leap m)) as [_|]; [|lia].
  destruct (month_day leap (yday_of leap m dd)) as [m' dd'].
  apply andb_prop in Hc. destruct Hc as [Hc H4].
  apply andb_prop in Hc. destruct Hc as [Hc H3].
  apply andb_prop in Hc. destruct Hc as [H1 H2].
  apply Z.leb_le in H1. apply Z.ltb_lt in H2. apply Z.eqb_eq in H3, H4.
  subst. split; [reflexivity|lia].
Qed.

Lemma clock_decompose (a : Z) :
  0 <= (a mod time.secondsPerDay) / time.secondsPerHour < 24 /\
  0 <= (a mod time.secondsPerHour) / time.secondsPerMinute < 60 /\
  0 <= a mod time.secondsPerMinute < 60 /\
  (a / time.secondsPerDay) * time.secondsPerDay
  + clock_seconds ((a mod time.secondsPerDay) / time.secondsPerHour)
                  ((a mod time.secondsPerHour) / time.secondsPerMinute)
                  (a mod time.secondsPerMinute) = a.
Proof.
  unfold clock_seconds, time.secondsPerDay, time.secondsPerHour, time.secondsPerMinute.
  change (24 * (60 * 60)) with 86400. change (60 * 60) with 3600.
  Z.to_euclidean_division_equations. lia.
Qed.

Lemma clock_compose (n h mi s : Z) :
  0 <= h < 24 -> 0 <= mi < 60 -> 0 <= s < 60 ->
  let a := n * time.secondsPerDay + clock_seconds h mi s in
  a / time.secondsPerDay = n /\
  (a mod time.secondsPerDay) / time.secondsPerHour = h /\
  (a mod time.secondsPerHour) / time.secondsPerMinute = mi /\
  a mod time.secondsPerMinute = s.
Proof.
  intros Hh Hmi Hs.
  unfold clock_seconds, time.secondsPerDay, time.secondsPerHour, time.secondsPerMinute.
  change (24 * (60 * 60)) with 86400. change (60 * 60) with 3600.
  cbv zeta.
  Z.to_euclidean_division_equations. lia.
Qed.

(** [time.Date] on a month and a time of day that are in range: nothing is
    normalized but the day of the month. *)
Lemma Date_in_range (y m dd h mi s : Z) :
  1 <= m <= 12 -> 0 <= h < 24 -> 0 <= mi < 60 -> 0 <= s < 60 ->
  time.Date y m dd h mi s 0 =
  time.mkTime ((time.daysSinceEpoch y + yday_of (time.isLeap y) m dd)
               * time.secondsPerDay + clock_seconds h mi s) 0.
Proof.
  intros Hm Hh Hmi Hs. unfold time.Date.
  rewrite (norm_in_range y (m - 1) 12) by lia.
  rewrite (norm_in_range s 0 1000000000) by lia.
  rewrite (norm_in_range mi s 60) by lia.
  rewrite (norm_in_range h mi 60) by lia.
  rewrite (norm_in_range dd h 24) by lia.
  cbv zeta. unfold yday_of, clock_seconds.
  replace (m - 1 + 1) with m by ring.
  destruct (time.isLeap y && (m >=? time.March)); f_equal; ring.
Qed.

(** The calendar fields of any time give the time back through
    [time.Date]. *)
Lemma Date_of_fields (t : time.Time) :
  time.Date (time.Year t) (time.Month t) (time.Day t)
            (time.Hour t) (time.Minute t) (time.Second t) 0 =
  time.mkTime (time.abs t) 0.
Proof.
  destruct t as [a n].
  unfold time.Year, time.Month, time.Day, time.Hour, time.Minute, time.Second.
  cbn [time.abs].
  rewrite absDate_split.
  destruct (split_days_spec (a / time.secondsPerDay))
    as (q & yy & yday & Hs & Hyy & Hyday & Hd).
  rewrite Hs. cbv zeta.
  rewrite isLeap_absolute.
  destruct (month_day_spec (cycle_leap yy) yday Hyday)
    as (m & dd & Hmd & Hm & Hdd & Hy).
  rewrite Hmd.
  destruct (clock_decompose a) as (Hh & Hmi & Hsec & Ha).
  rewrite Date_in_range by lia.
  rewrite isLeap_absolute, Hy, daysSinceEpoch_eq.
  replace (400 * q + yy + time.absoluteZeroYear - time.absoluteZeroYear)
    with (400 * q + yy) by ring.
  rewrite days_before_year_cycle by exact Hyy.
  rewrite Hd, Ha. reflexivity.
Qed.

(** Conversely a calendar date and time of day are the fields of the time
    [time.Date] builds from them. *)
Lemma Date_accessors (y m dd h mi s : Z) :
  1 <= m <= 12 -> 1 <= dd <= daysIn y m ->
  0 <= h < 24 -> 0 <= mi < 60 -> 0 <= s < 60 ->
  let t := time.Date y m dd h mi s 0 in
  time.Year t = y /\ time.Month t = m /\ time.Day t = dd /\
  time.Hour t = h /\ time.Minute t = mi /\ time.Second t = s.
Proof.
  intros Hm Hdd Hh Hmi Hs. cbv zeta.
  rewrite Date_in_range by assumption.
  set (q := (y - time.absoluteZeroYear) / 400).
  set (yy := (y - time.absoluteZeroYear) mod 400).
  assert (Hyy : 0 <= yy < 400) by (apply Z.mod_pos_bound; lia).
  assert (Hy : y = 400 * q + yy + time.absoluteZeroYear).
  { pose proof (Z.div_mod (y - time.absoluteZeroYear) 400 ltac:(lia)).
    unfold q, yy. lia. }
  assert (Hleap : time.isLeap y = cycle_leap yy).
  { rewrite Hy at 1. apply isLeap_absolute. }
  assert (Hdd' : 1 <= dd <= month_length (cycle_leap yy) m).
  { unfold daysIn in Hdd. rewrite Hleap in Hdd. exact Hdd. }
  destruct (month_day_inverse (cycle_leap yy) m dd Hm Hdd') as [Hmd Hyd].
  destruct (clock_compose (time.daysSinceEpoch y + yday_of (time.isLeap y) m dd)
                          h mi s Hh Hmi Hs) as (Hday & Hhour & Hmin & Hsec).
  unfold time.Year, time.Month, time.Day, time.Hour, time.Minute, time.Second.
  cbn [time.abs].
  rewrite Hhour, Hmin, Hsec, absDate_split, Hday.
  rewrite daysSinceEpoch_eq, Hleap.
  replace (y - time.absoluteZeroYear) with (400 * q + yy) by lia.
  rewrite days_before_year_cycle by exact Hyy.
  rewrite split_days_inverse by assumption.
  cbv zeta. rewrite isLeap_absolute, Hmd.
  rewrite <- Hy. repeat split; reflexivity.
Qed.

Lemma fields_of_Date (y m dd h mi s : Z) :
  1 <= m <= 12 -> 1 <= dd <= daysIn y m ->
  0 <= h < 24 -> 0 <= mi < 60 -> 0 <= s < 60 ->
  fields (time.Date y m dd h mi s 0) = [y; m; dd; h; mi; s].
Proof.
  intros Hm Hdd Hh Hmi Hs.
  destruct (Date_accessors y m dd h mi s Hm Hdd Hh Hmi Hs)
    as (E1 & E2 & E3 & E4 & E5 & E6).
  unfold fields. rewrite E1, E2, E3, E4, E5, E6. reflexivity.
Qed.

(** ** The simulated chip *)

Section Simulation.

Variable d : DS1302.
Hypothesis Hpins : distinct_pins d.

Lemma pin_tests :
  (clk d =? rst d) = false /\ (dat d =? rst d) = false /\ (dat d =? clk d) = false.
Proof.
  destruct Hpins as (H1 & H2 & H3).
  repeat split; apply Z.eqb_neq; congruence.
Qed.

Lemma sim_write_cell (b : bool) (c : Chip) :
  dev_run (SimChip d) (write_cell d b) c = chip_fall (chip_rise (chip_data b c)).
Proof.
  destruct pin_tests as (E1 & E2 & E3).
  unfold write_cell, clock_pulse, dev_run.
  destruct b; cbn [app fold_left dev_step SimChip chip_step];
    rewrite ?Z.eqb_refl, ?E1, ?E2, ?E3; reflexivity.
Qed.

Lemma sim_read_cell (b : bool) (c : Chip) :
  dev_run (SimChip d) (read_cell d b) c = chip_fall (chip_rise c).
Proof.
  destruct pin_tests as (E1 & E2 & E3).
  unfold read_cell, clock_pulse, dev_run.
  cbn [app fold_left dev_step SimChip chip_step].
  rewrite ?Z.eqb_refl, ?E1, ?E2, ?E3. reflexivity.
Qed.

Lemma sim_read_cell_sampled (b : bool) (c : Chip) :
  sampled (SimChip d) c (read_cell d b) <-> b = chip_out (chip_rise c).
Proof.
  destruct pin_tests as (E1 & E2 & E3).
  unfold read_cell, clock_pulse.
  cbn [app sampled dev_step dev_level SimChip chip_step chip_level].
  rewrite ?Z.eqb_refl, ?E1, ?E2, ?E3.
  unfold chip_level. rewrite Z.eqb_refl. cbn [andb]. tauto.
Qed.

Lemma sim_write_cells (bs : list bool) :
  forall c, dev_run (SimChip d) (flat_map (write_cell d) bs) c = shift_in bs c.
Proof.
  induction bs as [|b bs IH]; intro c; [reflexivity|].
  cbn [flat_map]. rewrite dev_run_app, sim_write_cell, IH. reflexivity.
Qed.

Lemma sim_write_cells_sampled (bs : list bool) :
  forall c, sampled (SimChip d) c (flat_map (write_cell d) bs).
Proof.
  induction bs as [|b bs IH]; intro c; [exact I|].
  cbn [flat_map]. apply sampled_app. split; [|apply IH].
  unfold write_cell, clock_pulse. destruct b; simpl; tauto.
Qed.

Lemma sim_read_cells (bs : list bool) :
  forall c,
    dev_run (SimChip d) (flat_map (read_cell d) bs) c = clock_out (length bs) c /\
    (sampled (SimChip d) c (flat_map (read_cell d) bs) <-> samples_ok bs c).
Proof.
  induction bs as [|b bs IH]; intro c; [split; [reflexivity|simpl; tauto]|].
  cbn [flat_map length clock_out samples_ok].
  rewrite dev_run_app, sampled_app, sim_read_cell, sim_read_cell_sampled.
  destruct (IH (chip_fall (chip_rise c))) as [H1 H2].
  rewrite H1, H2. tauto.
Qed.

Lemma sim_writeByte (x : Z) (c : Chip) :
  dev_run (SimChip d) (writeByte_events d x) c = shift_in (bits8 x) c.
Proof.
  unfold writeByte_events.
  change (EvConfigure (dat d) PinOutput :: flat_map (write_cell d) (bits8 x))
    with ([EvConfigure (dat d) PinOutput] ++ flat_map (write_cell d) (bits8 x)).
  rewrite dev_run_app. apply sim_write_cells.
Qed.

Lemma sim_select (c : Chip) : dev_run (SimChip d) [EvHigh (rst d)] c = chip_select c.
Proof. unfold dev_run. simpl. rewrite Z.eqb_refl. reflexivity. Qed.

Lemma sim_deselect (c : Chip) : dev_run (SimChip d) [EvLow (rst d)] c = chip_deselect c.
Proof. unfold dev_run. simpl. rewrite Z.eqb_refl. reflexivity. Qed.

End Simulation.

(** The chip's view of the command byte, of a data byte written and of a
    data byte read, on explicit bits. *)
Lemma command_phase (b0 b1 b2 b3 b4 b5 b6 b7 : bool) (c : Chip) :
  let x := byte_of_bits [b0; b1; b2; b3; b4; b5; b6; b7] in
  shift_in [b0; b1; b2; b3; b4; b5; b6; b7] (chip_select c) =
  mkChip true b7 8 8 x 0 (regs c) (cmds c ++ [x]).
Proof.
  destruct b0, b1, b2, b3, b4, b5, b6, b7; reflexivity.
Qed.

Lemma data_phase (b0 b1 b2 b3 b4 b5 b6 b7 x : bool) (reg : Z)
      (m : Z -> Z) (l : list Z) :
  Z.even reg = true ->
  let v := byte_of_bits [b0; b1; b2; b3; b4; b5; b6; b7] in
  shift_in [b0; b1; b2; b3; b4; b5; b6; b7] (mkChip true x 8 8 reg 0 m l) =
  mkChip true b7 16 16 reg v (store m reg v) l.
Proof.
  intro Heven.
  destruct reg as [|[p|p|]|[p|p|]]; try discriminate Heven;
    destruct b0, b1, b2, b3, b4, b5, b6, b7; reflexivity.
Qed.

Lemma read_phase (bs : list bool) (x : bool) (reg : Z) (m : Z -> Z) (l : list Z) :
  Z.odd reg = true ->
  length bs = 8%nat ->
  samples_ok bs (mkChip true x 8 8 reg 0 m l) ->
  bs = bits8 (m (reg - 1)) /\
  clock_out (length bs) (mkChip true x 8 8 reg 0 m l) = mkChip true x 16 16 reg 0 m l.
Proof.
  intros Hodd Hlen Hs.
  destruct bs as [|b0 [|b1 [|b2 [|b3 [|b4 [|b5 [|b6 [|b7 [|]]]]]]]]];
    try discriminate Hlen.
  cbn [samples_ok] in Hs.
  destruct Hs as (H0 & H1 & H2 & H3 & H4 & H5 & H6 & H7 & _).
  subst b0 b1 b2 b3 b4 b5 b6 b7.
  destruct reg as [|[p|p|]|[p|p|]]; try discriminate Hodd;
    split; vm_compute; reflexivity.
Qed.

Lemma byte_of_bits8_mod (x : Z) : byte_of_bits (bits8 x) = x mod 256.
Proof.
  apply Z.bits_inj'. intros n Hn.
  change 256 with (2 ^ 8).
  destruct (Z.ltb_spec n 8) as [Hlt|Hge].
  - rewrite Z.mod_pow2_bits_low by lia.
    rewrite <- (Z2Nat.id n Hn), byte_of_bits_testbit.
    assert (Hc : (Z.to_nat n < 8)%nat) by lia.
    unfold bits8.
    destruct (Z.to_nat n) as [|[|[|[|[|[|[|[|k]]]]]]]]; try reflexivity. lia.
  - rewrite Z.mod_pow2_bits_high by lia.
    pose proof (byte_of_bits_range (bits8 x)) as Hr.
    rewrite bits8_length in Hr.
    destruct (Z.eq_dec (byte_of_bits (bits8 x)) 0) as [E|E].
    + rewrite E. apply Z.bits_0.
    + apply Z.bits_above_log2; [lia|].
      assert (Z.log2 (byte_of_bits (bits8 x)) < 8); [|lia].
      apply Z.log2_lt_pow2; [lia|]. exact (proj2 Hr).
Qed.

Section SimulatedFrames.

Variable d : DS1302.
Hypothesis Hpins : distinct_pins d.

Lemma dev_run_write_frame (reg v : Z) (c : Chip) :
  dev_run (SimChip d) (write_frame d (reg, v)) c =
  chip_deselect (shift_in (bits8 v) (shift_in (bits8 reg) (chip_select c))).
Proof.
  unfold write_frame. cbn [fst snd].
  rewrite <- (sim_writeByte d Hpins v), <- (sim_writeByte d Hpins reg).
  rewrite <- (sim_select d), <- (sim_deselect d).
  remember (writeByte_events d reg) as wr.
  remember (writeByte_events d v) as wv.
  rewrite !dev_run_app. reflexivity.
Qed.

Lemma dev_run_read_frame (reg : Z) (bs : list bool) (c : Chip) :
  dev_run (SimChip d) (read_frame d reg bs) c =
  chip_deselect (clock_out (length bs) (shift_in (bits8 reg) (chip_select c))).
Proof.
  unfold read_frame, readByte_events.
  destruct (sim_read_cells d Hpins bs (shift_in (bits8 reg) (chip_select c)))
    as [Hrun _].
  rewrite <- Hrun.
  rewrite <- (sim_writeByte d Hpins reg).
  rewrite <- (sim_select d), <- (sim_deselect d).
  remember (writeByte_events d reg) as wr.
  remember (flat_map (read_cell d) bs) as rd.
  change (EvConfigure (dat d) PinInput :: rd)
    with ([EvConfigure (dat d) PinInput] ++ rd).
  rewrite !dev_run_app. reflexivity.
Qed.

Lemma sampled_read_frame (reg : Z) (bs : list bool) (c : Chip) :
  sampled (SimChip d) c (read_frame d reg bs) ->
  samples_ok bs (shift_in (bits8 reg) (chip_select c)).
Proof.
  unfold read_frame, readByte_events.
  destruct (sim_read_cells d Hpins bs (shift_in (bits8 reg) (chip_select c)))
    as [_ Hsam].
  intro Hs. apply Hsam. clear Hsam.
  rewrite <- (sim_writeByte d Hpins reg).
  rewrite <- (sim_select d).
  remember (writeByte_events d reg) as wr.
  remember (flat_map (read_cell d) bs) as rd.
  change (EvConfigure (dat d) PinInput :: rd)
    with ([EvConfigure (dat d) PinInput] ++ rd) in Hs.
  apply sampled_app in Hs. destruct Hs as [_ Hs].
  apply sampled_app in Hs. destruct Hs as [_ Hs].
  apply sampled_app in Hs. destruct Hs as [Hs _].
  apply sampled_app in Hs. destruct Hs as [_ Hs].
  exact Hs.
Qed.

(** A write frame stores the value at the address. *)
Lemma sim_write_frame (reg v : Z) (c : Chip) :
  0 <= reg < 256 -> Z.even reg = true -> 0 <= v < 256 ->
  dev_run (SimChip d) (write_frame d (reg, v)) c =
  mkChip false (Z.testbit v 7) 16 16 reg v (store (regs c) reg v) (cmds c ++ [reg]).
Proof.
  intros Hreg Heven Hv.
  rewrite dev_run_write_frame.
  pose proof (byte_of_bits8 reg Hreg) as Er.
  pose proof (byte_of_bits8 v Hv) as Ev.
  unfold bits8 in *. cbn [map] in *.
  rewrite command_phase. cbv zeta. rewrite Er.
  rewrite data_phase by exact Heven. cbv zeta. rewrite Ev.
  reflexivity.
Qed.

(** A read frame returns the bits of the byte stored at the address minus
    one and changes no register. *)
Lemma sim_read_frame (reg : Z) (bs : list bool) (c : Chip) :
  0 <= reg < 256 -> Z.odd reg = true -> length bs = 8%nat ->
  sampled (SimChip d) c (read_frame d reg bs) ->
  bs = bits8 (regs c (reg - 1)) /\
  dev_run (SimChip d) (read_frame d reg bs) c =
  mkChip false (Z.testbit reg 7) 16 16 reg 0 (regs c) (cmds c ++ [reg]).
Proof.
  intros Hreg Hodd Hlen Hs.
  apply sampled_read_frame in Hs.
  rewrite dev_run_read_frame.
  pose proof (byte_of_bits8 reg Hreg) as Er.
  unfold bits8 in Hs, Er. unfold bits8 at 2. cbn [map] in *.
  rewrite command_phase in Hs |- *. cbv zeta in Hs |- *. rewrite Er in Hs |- *.
  destruct (read_phase bs (Z.testbit reg 7) reg (regs c) (cmds c ++ [reg]) Hodd Hlen Hs)
    as [Hbs Hout].
  split; [exact Hbs|]. rewrite Hout. reflexivity.
Qed.

End SimulatedFrames.

Section SimulatedRegisters.

Variable d : DS1302.
Hypothesis Hpins : distinct_pins d.

Lemma sim_write_frames (ws : list (Z * Z)) :
  Forall write_ok ws ->
  forall c,
    dev_run (SimChip d) (flat_map (write_frame d) ws) c = fold_left chip_written ws c.
Proof.
  intro H. induction H as [|[reg v] ws (Hr & He & Hv) _ IH]; intro c; [reflexivity|].
  cbn [flat_map fold_left]. rewrite dev_run_app.
  rewrite (sim_write_frame d Hpins reg v c Hr He Hv). apply IH.
Qed.

Lemma sim_read_frames (rbs : list (Z * list bool)) :
  Forall read_ok rbs ->
  forall c,
    sampled (SimChip d) c (flat_map (fun rb => read_frame d (fst rb) (snd rb)) rbs) ->
    map snd rbs = map (fun rb => bits8 (regs c (fst rb - 1))) rbs /\
    regs (dev_run (SimChip d)
                  (flat_map (fun rb => read_frame d (fst rb) (snd rb)) rbs) c) = regs c /\
    cmds (dev_run (SimChip d)
                  (flat_map (fun rb => read_frame d (fst rb) (snd rb)) rbs) c)
    = cmds c ++ map fst rbs.
Proof.
  intro H. induction H as [|[reg bs] rbs (Hr & Ho & Hl) _ IH]; intros c Hs.
  - cbn. rewrite app_nil_r. auto.
  - cbn [flat_map map fst snd] in *.
    apply sampled_app in Hs. destruct Hs as [Hs1 Hs2].
    destruct (sim_read_frame d Hpins reg bs c Hr Ho Hl Hs1) as [Hbs Hrun].
    rewrite dev_run_app. rewrite Hrun in Hs2 |- *.
    destruct (IH _ Hs2) as (IH1 & IH2 & IH3).
    cbn [regs cmds] in IH1, IH2, IH3.
    rewrite IH1, IH2, IH3, Hbs, <- app_assoc. auto.
Qed.

(** Against the simulated chip, [SetTime] stores the eight values and
    [ReadTime] decodes the stored bytes. *)
Lemma sim_SetTime (t : time.Time) (w : World (SimChip d)) :
  exists w',
    SetTime d t w = (tt, w') /\
    dev w' = fold_left chip_written (SetTime_writes t) (dev w).
Proof.
  destruct (SetTime_run (SimChip d) d t w) as [H _].
  exists (push w (flat_map (write_frame d) (SetTime_writes t))).
  split; [exact H|].
  cbn [push dev]. apply sim_write_frames.
  unfold SetTime_writes, write_ok.
  repeat constructor; cbn [fst snd]; try reflexivity; try lia;
    try apply decToBcd_range.
Qed.

Lemma sim_ReadTime (w : World (SimChip d)) :
  exists w',
    ReadTime d w =
      (assemble (decode_raw (map (fun r => regs (dev w) (r - 1) mod 256) ReadTime_reads)),
       w') /\
    regs (dev w') = regs (dev w) /\
    cmds (dev w') = cmds (dev w) ++ ReadTime_reads.
Proof.
  destruct (ReadTime_run (SimChip d) d w) as (bss & L & F & H & S).
  exists (push w (ReadTime_events d bss)).
  unfold ReadTime_events in *.
  destruct bss as [|b1 [|b2 [|b3 [|b4 [|b5 [|b6 [|]]]]]]]; try discriminate L.
  assert (Hok : Forall read_ok (combine ReadTime_reads [b1; b2; b3; b4; b5; b6])).
  { repeat match goal with H : Forall _ (_ :: _) |- _ => inversion_clear H end.
    unfold ReadTime_reads, read_ok. cbn [combine].
    repeat constructor; cbn [fst snd]; try reflexivity; try lia; assumption. }
  destruct (sim_read_frames _ Hok (dev w) S) as (Hb & Hr & Hc).
  cbn [push dev]. rewrite Hr, Hc.
  split; [|split; [reflexivity|]].
  - rewrite H. f_equal. f_equal. f_equal.
    unfold ReadTime_reads in Hb |- *. cbn [combine map fst snd] in Hb |- *.
    injection Hb as -> -> -> -> -> ->.
    rewrite !byte_of_bits8_mod. reflexivity.
  - reflexivity.
Qed.

End SimulatedRegisters.

(** ** End to end against the simulated chip *)

Lemma seconds_codec (n : Z) :
  0 <= n <= 59 -> bcdToDec (Z.land (decToBcd (wrap8 n) mod 256) 0x7F) = n.
Proof.
  intro Hn. apply Z.eqb_eq.
  apply (all_below_spec
           (fun n => bcdToDec (Z.land (decToBcd (wrap8 n) mod 256) 0x7F) =? n) 60).
  - vm_compute. reflexivity.
  - lia.
Qed.

Lemma field_codec (n : Z) :
  0 <= n <= 159 -> bcdToDec (decToBcd (wrap8 n) mod 256) = n.
Proof.
  intro Hn.
  rewrite wrap8_small by lia.
  rewrite Z.mod_small by apply decToBcd_range.
  apply bcd_inverse. exact Hn.
Qed.

(** C1: for every timestamp whose fields are in range (seconds 0-59,
    minutes 0-59, hours 0-23, day 1-31, month 1-12, year 2000-2099),
    [SetTime] followed by [ReadTime] against the simulated chip, which
    stores each byte written at a write address and returns it on the read
    address one above, yields a timestamp with the same six fields; the
    chip receives the eight write commands and the six read commands and no
    other, so the day-of-week register (0x8A, read at 0x8B) is never
    addressed and keeps its content. *)
Theorem SetTime_ReadTime_roundtrip (d : DS1302) (w : World (SimChip d)) (t : time.Time) :
  distinct_pins d ->
  0 <= time.Second t <= 59 -> 0 <= time.Minute t <= 59 -> 0 <= time.Hour t <= 23 ->
  1 <= time.Day t <= 31 -> 1 <= time.Month t <= 12 -> 2000 <= time.Year t <= 2099 ->
  let w1 := snd (SetTime d t w) in
  let r := fst (ReadTime d w1) in
  let w2 := snd (ReadTime d w1) in
  time.Second r = time.Second t /\
  time.Minute r = time.Minute t /\
  time.Hour r = time.Hour t /\
  time.Day r = time.Day t /\
  time.Month r = time.Month t /\
  time.Year r = time.Year t /\
  regs (dev w2) DS1302_DAY_WRITE = regs (dev w) DS1302_DAY_WRITE /\
  cmds (dev w2) =
    cmds (dev w) ++ [0x8E; 0x80; 0x82; 0x84; 0x86; 0x88; 0x8C; 0x8E;
                     0x81; 0x83; 0x85; 0x87; 0x89; 0x8D].
Proof.
  intros Hpins Hs Hmi Hh Hd Hmo Hy. cbv zeta.
  destruct (sim_SetTime d Hpins t w) as (w1 & E1 & D1).
  rewrite E1. cbn [snd].
  destruct (sim_ReadTime d Hpins w1) as (w2 & E2 & R2 & C2).
  rewrite E2. cbn [fst snd].
  assert (Hraw : map (fun r => regs (dev w1) (r - 1) mod 256) ReadTime_reads =
                 [decToBcd (wrap8 (time.Second t)) mod 256;
                  decToBcd (wrap8 (time.Minute t)) mod 256;
                  decToBcd (wrap8 (time.Hour t)) mod 256;
                  decToBcd (wrap8 (time.Day t)) mod 256;
                  decToBcd (wrap8 (time.Month t)) mod 256;
                  decToBcd (wrap8 (time.Year t - 2000)) mod 256])
    by (rewrite D1; reflexivity).
  assert (Hdow : regs (dev w1) DS1302_DAY_WRITE = regs (dev w) DS1302_DAY_WRITE)
    by (rewrite D1; reflexivity).
  assert (Hcmds : cmds (dev w1) =
                  cmds (dev w) ++ [0x8E; 0x80; 0x82; 0x84; 0x86; 0x88; 0x8C; 0x8E]).
  { rewrite D1. unfold SetTime_writes. cbn [fold_left chip_written cmds fst].
    rewrite <- !app_assoc. reflexivity. }
  rewrite R2, C2, Hraw, Hdow, Hcmds.
  unfold decode_raw, assemble.
  cbn [nth seconds minutes hours day month year].
  rewrite seconds_codec by exact Hs.
  rewrite !field_codec by lia.
  replace (2000 + (time.Year t - 2000)) with (time.Year t) by ring.
  rewrite Date_of_fields.
  split; [reflexivity|]. split; [reflexivity|]. split; [reflexivity|].
  split; [reflexivity|]. split; [reflexivity|]. split; [reflexivity|].
  split; [reflexivity|].
  rewrite <- app_assoc. reflexivity.
Qed.

Lemma SetTime_ReadTime_roundtrip_witness :
  let d := NewDS1302 18 19 5 in
  let t := time.Date 2024 8 5 21 0 0 0 in
  let w := sim_world d (fun _ => 0) in
  (distinct_pins d /\ 0 <= time.Second t <= 59 /\ 0 <= time.Minute t <= 59 /\
   0 <= time.Hour t <= 23 /\ 1 <= time.Day t <= 31 /\ 1 <= time.Month t <= 12 /\
   2000 <= time.Year t <= 2099) /\
  fields (fst (ReadTime d (snd (SetTime d t w)))) = [2024; 8; 5; 21; 0; 0].
Proof.
  intros d t w.
  assert (Hp : distinct_pins d) by (repeat split; discriminate).
  assert (H1 : 0 <= time.Second t <= 59) by (vm_compute; split; discriminate).
  assert (H2 : 0 <= time.Minute t <= 59) by (vm_compute; split; discriminate).
  assert (H3 : 0 <= time.Hour t <= 23) by (vm_compute; split; discriminate).
  assert (H4 : 1 <= time.Day t <= 31) by (vm_compute; split; discriminate).
  assert (H5 : 1 <= time.Month t <= 12) by (vm_compute; split; discriminate).
  assert (H6 : 2000 <= time.Year t <= 2099) by (vm_compute; split; discriminate).
  split; [exact (conj Hp (conj H1 (conj H2 (conj H3 (conj H4 (conj H5 H6))))))|].
  destruct (SetTime_ReadTime_roundtrip d w t Hp H1 H2 H3 H4 H5 H6)
    as (E1 & E2 & E3 & E4 & E5 & E6 & _).
  unfold fields. rewrite E1, E2, E3, E4, E5, E6.
  vm_compute. reflexivity.
Defined.

(** ** Decoding in [ReadTime] *)

Lemma norm_spec (hi lo base : Z) :
  0 < base ->
  let '(nhi, nlo) := time.norm hi lo base in
  hi * base + lo = nhi * base + nlo /\ 0 <= nlo < base.
Proof.
  intro Hb. unfold time.norm.
  destruct (Z.ltb_spec lo 0) as [Hneg|Hpos].
  - pose proof (Z.quot_rem' (- lo - 1) base) as Hq.
    pose proof (Z.rem_bound_pos (- lo - 1) base ltac:(lia) Hb) as Hr.
    set (n := Z.quot (- lo - 1) base + 1) in *.
    destruct (Z.geb_spec (lo + n * base) base) as [Hge|Hlt].
    + exfalso. unfold n in Hge. nia.
    + split; [ring|]. unfold n in *. nia.
  - destruct (Z.geb_spec lo base) as [Hge|Hlt].
    + pose proof (Z.quot_rem' lo base) as Hq.
      pose proof (Z.rem_bound_pos lo base Hpos Hb) as Hr.
      split; [ring|]. nia.
    + split; [reflexivity|lia].
Qed.

(** Seconds in range pass through [time.Date] whatever the other
    arguments are. *)
Lemma Second_Date (y m dd h mi s : Z) :
  0 <= s < 60 -> time.Second (time.Date y m dd h mi s 0) = s.
Proof.
  intro Hs. unfold time.Date.
  destruct (time.norm y (m - 1) 12) as [y' m'].
  rewrite (norm_in_range s 0 1000000000) by lia.
  rewrite (norm_in_range mi s 60) by lia.
  destruct (time.norm h mi 60) as [h' mi'].
  destruct (time.norm dd h' 24) as [dd' h''].
  cbv zeta. unfold time.Second. cbn [time.abs].
  unfold time.secondsPerDay, time.secondsPerHour, time.secondsPerMinute.
  match goal with
  | |- (?D * _ + _) mod 60 = s =>
      symmetry; apply Z.mod_unique with (q := D * 1440 + h'' * 60 + mi'); [lia|ring]
  end.
Qed.

Lemma mask_drops_bit7 (b : Z) : Z.land (Z.lxor b 0x80) 0x7F = Z.land b 0x7F.
Proof.
  apply Z.bits_inj'. intros n Hn.
  rewrite !Z.land_spec, Z.lxor_spec.
  change 0x80 with (2 ^ 7). change 0x7F with (Z.ones 7).
  destruct (Z.ltb_spec n 7) as [Hlt|Hge].
  - rewrite Z.pow2_bits_false by lia. rewrite xorb_false_r. reflexivity.
  - rewrite Z.ones_spec_high by lia. rewrite !andb_false_r. reflexivity.
Qed.

Lemma ReadTime_decode_seconds (D : Device) (d : DS1302) (w : World D) :
  seconds (fst (ReadTime_decode d w)) =
  bcdToDec (Z.land (fst (readRegister d DS1302_SECONDS_READ w)) 0x7F).
Proof.
  unfold ReadTime_decode, bind.
  destruct (readRegister d DS1302_SECONDS_READ w) as [r1 w1].
  destruct (readRegister d DS1302_MINUTES_READ w1) as [r2 w2].
  destruct (readRegister d DS1302_HOURS_READ w2) as [r3 w3].
  destruct (readRegister d DS1302_DATE_READ w3) as [r4 w4].
  destruct (readRegister d DS1302_MONTH_READ w4) as [r5 w5].
  destruct (readRegister d DS1302_YEAR_READ w5) as [r6 w6].
  reflexivity.
Qed.

Lemma ReadTime_assemble (D : Device) (d : DS1302) (w : World D) :
  ReadTime d w = (assemble (fst (ReadTime_decode d w)), snd (ReadTime_decode d w)).
Proof.
  unfold ReadTime, bind. destruct (ReadTime_decode d w) as [v w']. reflexivity.
Qed.

(** C3: for every raw byte the seconds read register (0x81) returns,
    [ReadTime] decodes the seconds as [bcdToDec] of that byte ANDed with
    0x7F and passes them to the timestamp; bit 7, the clock-halt flag, never
    influences the decoded seconds: flipping it in the raw byte changes
    nothing; the raw byte 0xD9 decodes to 59. *)
Theorem seconds_clock_halt_masked (D : Device) (d : DS1302) (w : World D) :
  let raw := fst (readRegister d DS1302_SECONDS_READ w) in
  let v := fst (ReadTime_decode d w) in
  DS1302_SECONDS_READ = 0x81 /\
  seconds v = bcdToDec (Z.land raw 0x7F) /\
  fst (ReadTime d w) = assemble v /\
  (seconds v <= 59 -> time.Second (fst (ReadTime d w)) = seconds v) /\
  (forall b, bcdToDec (Z.land (Z.lxor b 0x80) 0x7F) = bcdToDec (Z.land b 0x7F)) /\
  bcdToDec (Z.land 0xD9 0x7F) = 59.
Proof.
  cbv zeta. split; [reflexivity|]. split; [apply ReadTime_decode_seconds|].
  split; [rewrite ReadTime_assemble; reflexivity|]. split; [|split].
  - intro Hle. rewrite ReadTime_assemble. cbn [fst]. unfold assemble.
    apply Second_Date.
    rewrite ReadTime_decode_seconds in *.
    pose proof (bcdToDec_range
                  (Z.land (fst (readRegister d DS1302_SECONDS_READ w)) 0x7F)).
    lia.
  - intro b. rewrite mask_drops_bit7. reflexivity.
  - reflexivity.
Qed.

Lemma seconds_clock_halt_masked_witness :
  let d := NewDS1302 18 19 5 in
  let w := sim_world d (fun a => if a =? 0x80 then 0xD9 else 1) in
  seconds (fst (ReadTime_decode d w)) <= 59 /\
  time.Second (fst (ReadTime d w)) = 59.
Proof.
  intros d w.
  assert (H : seconds (fst (ReadTime_decode d w)) <= 59) by (vm_compute; discriminate).
  split; [exact H|].
  destruct (seconds_clock_halt_masked (SimChip d) d w) as (_ & _ & _ & Hs & _).
  rewrite (Hs H). vm_compute. reflexivity.
Defined.

(** What [ReadTime] returns has the decoded values as its fields when they
    form a calendar date and a time of day. *)
Lemma assemble_fields (v : Decoded) :
  in_calendar v ->
  fields (assemble v) = [year v; month v; day v; hours v; minutes v; seconds v].
Proof.
  intros (Hs & Hmi & Hh & Hmo & Hd). unfold assemble.
  apply fields_of_Date; solve [assumption | lia].
Qed.

(** C6, as the code has it: for every combination of raw bytes the
    hardware returns for the six read registers, [ReadTime] checks nothing:
    it decodes each byte through [bcdToDec] (seconds masked with 0x7F, year
    offset by 2000) and passes the decoded values as they are to
    [time.Date] in UTC, with no offset conversion.  Each field of the
    returned timestamp equals the decoded value whenever the decoded values
    form a calendar date and a time of day; values out of calendar range are
    normalized by [time.Date]. *)
Theorem ReadTime_passes_decoded_values (D : Device) (d : DS1302) (w : World D) :
  let v := fst (ReadTime_decode d w) in
  (exists bss : list (list bool),
     length bss = 6%nat /\
     Forall (fun bs => length bs = 8%nat) bss /\
     sampled D (dev w) (ReadTime_events d bss) /\
     let raw := map byte_of_bits bss in
     ReadTime_decode d w =
       (mkDecoded (bcdToDec (Z.land (nth 0 raw 0) 0x7F))
                  (bcdToDec (nth 1 raw 0))
                  (bcdToDec (nth 2 raw 0))
                  (bcdToDec (nth 3 raw 0))
                  (bcdToDec (nth 4 raw 0))
                  (2000 + bcdToDec (nth 5 raw 0)),
        push w (ReadTime_events d bss))) /\
  ReadTime d w =
    (time.Date (year v) (month v) (day v) (hours v) (minutes v) (seconds v) 0,
     snd (ReadTime_decode d w)) /\
  (in_calendar v ->
   fields (fst (ReadTime d w)) =
   [year v; month v; day v; hours v; minutes v; seconds v]).
Proof.
  cbv zeta. split; [|split].
  - destruct (ReadTime_decode_run D d w) as (bss & L & F & H & S).
    exists bss. split; [exact L|]. split; [exact F|]. split; [exact S|].
    cbv zeta. exact H.
  - rewrite ReadTime_assemble. unfold assemble. reflexivity.
  - intro Hv. rewrite ReadTime_assemble. cbn [fst]. apply assemble_fields. exact Hv.
Qed.

Lemma ReadTime_passes_decoded_values_witness :
  let d := NewDS1302 18 19 5 in
  let w := sim_world d (chip_registers 0x00 0x00 0x21 0x05 0x08 0x24) in
  in_calendar (fst (ReadTime_decode d w)) /\
  fields (fst (ReadTime d w)) = [2024; 8; 5; 21; 0; 0].
Proof.
  intros d w.
  assert (H : in_calendar (fst (ReadTime_decode d w))).
  { vm_compute. repeat split; discriminate. }
  split; [exact H|].
  destruct (ReadTime_passes_decoded_values (SimChip d) d w) as (_ & _ & Hf).
  rewrite (Hf H). vm_compute. reflexivity.
Defined.

(** The claim C6 as stated fails: with the hours register holding 0x25 the
    decoded hour is 25, but the returned timestamp has hour 1 on the next
    day. *)
Lemma ReadTime_verbatim_counterexample :
  let d := NewDS1302 18 19 5 in
  let w := sim_world d (chip_registers 0x00 0x00 0x25 0x05 0x08 0x24) in
  let v := fst (ReadTime_decode d w) in
  let r := fst (ReadTime d w) in
  hours v = 25 /\ time.Hour r = 1 /\ time.Hour r <> hours v /\
  day v = 5 /\ time.Day r = 6 /\ time.Day r <> day v.
Proof.
  vm_compute. repeat split; discriminate.
Qed.

(** ** The year register *)

Lemma ReadTime_decode_year (D : Device) (d : DS1302) (w : World D) :
  exists bss : list (list bool),
    length bss = 6%nat /\
    Forall (fun bs => length bs = 8%nat) bss /\
    snd (ReadTime_decode d w) = push w (ReadTime_events d bss) /\
    year (fst (ReadTime_decode d w)) = 2000 + bcdToDec (byte_of_bits (nth 5 bss [])).
Proof.
  destruct (ReadTime_decode_run D d w) as (bss & L & F & H & S).
  exists bss. split; [exact L|]. split; [exact F|].
  rewrite H. cbn [fst snd]. split; [reflexivity|].
  destruct bss as [|b1 [|b2 [|b3 [|b4 [|b5 [|b6 [|]]]]]]]; try discriminate L.
  reflexivity.
Qed.

(** C5, as the code has it: [SetTime] writes to register 0x8C the byte
    [decToBcd (uint8 (absoluteYear - 2000))], so year 2024 writes 0x24; for
    years 2000-2099 this is the BCD encoding of [absoluteYear - 2000] and
    decodes back to it.  For a year outside that range nothing is reduced
    mod 100: the difference is truncated to its low eight bits by the
    conversion to [uint8] and then encoded by [decToBcd].  [ReadTime]
    reconstructs the year as [2000 + bcdToDec] of the raw year byte, the
    sixth byte it reads, so the raw byte 0x24 gives 2024, which is the year
    of the returned timestamp when the decoded values form a calendar
    date and a time of day. *)
Theorem year_register_codec (D : Device) (d : DS1302) (t : time.Time) (w : World D) :
  let v := fst (ReadTime_decode d w) in
  SetTime d t w = (tt, push w (flat_map (write_frame d) (SetTime_writes t))) /\
  nth 6 (SetTime_writes t) (0, 0) =
    (DS1302_YEAR_WRITE, decToBcd ((time.Year t - 2000) mod 256)) /\
  DS1302_YEAR_WRITE = 0x8C /\
  decToBcd ((2024 - 2000) mod 256) = 0x24 /\
  (2000 <= time.Year t <= 2099 ->
   decToBcd ((time.Year t - 2000) mod 256) = decimalToBcd_spec (time.Year t - 2000) /\
   bcdToDec (decToBcd ((time.Year t - 2000) mod 256)) = time.Year t - 2000) /\
  (exists bss : list (list bool),
     length bss = 6%nat /\
     Forall (fun bs => length bs = 8%nat) bss /\
     snd (ReadTime_decode d w) = push w (ReadTime_events d bss) /\
     year v = 2000 + bcdToDec (byte_of_bits (nth 5 bss []))) /\
  2000 + bcdToDec 0x24 = 2024 /\
  (in_calendar v -> time.Year (fst (ReadTime d w)) = year v).
Proof.
  cbv zeta.
  split; [destruct (SetTime_run D d t w) as [H _]; exact H|].
  split; [reflexivity|]. split; [reflexivity|]. split; [reflexivity|].
  split; [|split; [apply ReadTime_decode_year|split; [reflexivity|]]].
  - intro Hy. rewrite Z.mod_small by lia. split.
    + apply decToBcd_spec_eq. lia.
    + apply bcd_inverse. lia.
  - intro Hv. rewrite ReadTime_assemble. cbn [fst].
    destruct Hv as (Hs & Hmi & Hh & Hmo & Hd). unfold assemble.
    apply Date_accessors; solve [assumption | lia].
Qed.

Lemma year_register_codec_witness :
  let d := NewDS1302 18 19 5 in
  let t := time.Date 2024 8 5 21 0 0 0 in
  let w := sim_world d (chip_registers 0x00 0x00 0x21 0x05 0x08 0x24) in
  (2000 <= time.Year t <= 2099 /\ in_calendar (fst (ReadTime_decode d w))) /\
  bcdToDec (decToBcd ((time.Year t - 2000) mod 256)) = 24 /\
  time.Year (fst (ReadTime d w)) = 2024.
Proof.
  intros d t w.
  assert (Hy : 2000 <= time.Year t <= 2099) by (vm_compute; split; discriminate).
  assert (Hv : in_calendar (fst (ReadTime_decode d w))).
  { vm_compute. repeat split; discriminate. }
  split; [exact (conj Hy Hv)|].
  destruct (year_register_codec (SimChip d) d t w) as (_ & _ & _ & _ & H1 & _ & _ & H2).
  destruct (H1 Hy) as [_ E1]. rewrite E1, (H2 Hv).
  split; vm_compute; reflexivity.
Defined.

(** The claim C5 as stated fails: for the year 2100 the byte written to
    the year register is 0xA0, not the byte 0x00 written for
    [2000 + (2100 - 2000) mod 100 = 2000]. *)
Lemma year_mod_100_counterexample :
  let d := NewDS1302 18 19 5 in
  let w := sim_world d (fun _ => 0) in
  let t := time.Date 2100 1 1 0 0 0 0 in
  let t' := time.Date 2000 1 1 0 0 0 0 in
  time.Year t = 2100 /\
  time.Year t' = 2000 + (time.Year t - 2000) mod 100 /\
  regs (dev (snd (SetTime d t w))) DS1302_YEAR_WRITE = 0xA0 /\
  regs (dev (snd (SetTime d t' w))) DS1302_YEAR_WRITE = 0x00 /\
  regs (dev (snd (SetTime d t w))) DS1302_YEAR_WRITE <>
  regs (dev (snd (SetTime d t' w))) DS1302_YEAR_WRITE.
Proof.
  vm_compute. repeat split; discriminate.
Qed.

(** ** The stub *)

(** C9: on the stub built without TinyGo, any sequence of [Init],
    [SetTime] and [ReadTime] calls leaves the world as it was, with no
    event and no change of the device, and every [ReadTime] returns the
    zero timestamp (January 1 of year 1, 00:00:00 UTC), whatever the
    arguments of the [SetTime] calls before it. *)
Theorem stub_is_inert (D : Device) (s : stub.DS1302) (cs : list Call) (w : World D) :
  run_calls (substitute s) cs w =
    (map (fun _ => time.zero) (filter is_read cs), w) /\
  stub.ReadTime s w = (time.zero, w) /\
  fields time.zero = [1; 1; 1; 0; 0; 0] /\
  time.Unix time.zero = -62135596800.
Proof.
  split; [|split; [reflexivity|split; vm_compute; reflexivity]].
  induction cs as [|c cs IH]; [reflexivity|].
  destruct c as [|t|]; cbn [run_calls filter is_read map].
  - exact IH.
  - exact IH.
  - unfold bind at 1. cbn [substitute do_ReadTime]. unfold stub.ReadTime at 1, ret at 1.
    unfold bind at 1. rewrite IH. reflexivity.
Qed.

Lemma register_access_bracketed_witness :
  let d := NewDS1302 18 19 5 in
  let w := sim_world d (fun _ => 0) in
  (rst d <> clk d /\ rst d <> dat d /\
   (0 < 5 < length (write_frame d (0x80%Z, 0x59%Z)))%nat) /\
  line_level (rst d) (trace w ++ firstn 5 (write_frame d (0x80, 0x59))) = Some true /\
  exists bs : list bool,
    length bs = 8%nat /\
    line_level (rst d) (trace w ++ firstn 5 (read_frame d 0x81 bs)) = Some true.
Proof.
  intros d w.
  assert (H1 : rst d <> clk d) by discriminate.
  assert (H2 : rst d <> dat d) by discriminate.
  assert (H3 : (0 < 5 < length (write_frame d (0x80%Z, 0x59%Z)))%nat)
    by (vm_compute; split; lia).
  split; [exact (conj H1 (conj H2 H3))|].
  destruct (register_access_bracketed (SimChip d) d 0x80 0x59 w) as (_ & _ & Hw).
  split; [exact (Hw H1 H2 5%nat H3)|].
  destruct (register_access_bracketed (SimChip d) d 0x81 0x00 w)
    as (_ & (bs & Hlen & _ & Hr) & _).
  exists bs. split; [exact Hlen|].
  apply (Hr H1 H2 5%nat).
  unfold read_frame, readByte_events. rewrite !length_app. simpl. lia.
Defined.

(** * Further properties of the code *)

(** ** The codec beyond two digits *)

Lemma valid_bcdb_spec (b : Z) : valid_bcdb b = true <-> valid_bcd b.
Proof.
  unfold valid_bcdb, valid_bcd. rewrite andb_true_iff, !Z.leb_le. tauto.
Qed.

Lemma bcd_inverse_mod_160 (v : Z) :
  0 <= v < 256 -> bcdToDec (decToBcd v) = v mod 160.
Proof.
  intro Hv. apply Z.eqb_eq.
  apply (byte_cases (fun v => bcdToDec (decToBcd v) =? v mod 160)); [|exact Hv].
  vm_compute. reflexivity.
Qed.

(** X1: for every byte [v], decoding the encoding of [v] gives [v mod 160]:
    the round trip of C4 extends to [0 .. 159], and from 160 on the shifted
    tens digit overflows the byte and 160 is lost. *)
Theorem bcd_roundtrip_mod_160 (v : Z) :
  0 <= v < 256 ->
  bcdToDec (decToBcd v) = v mod 160 /\
  (v < 160 -> bcdToDec (decToBcd v) = v) /\
  (160 <= v -> decToBcd v = decToBcd (v - 160)).
Proof.
  intro Hv.
  assert (H : ((bcdToDec (decToBcd v) =? v mod 160)
               && (if v <? 160 then bcdToDec (decToBcd v) =? v
                   else decToBcd v =? decToBcd (v - 160))) = true).
  { apply (byte_cases (fun v => (bcdToDec (decToBcd v) =? v mod 160)
               && (if v <? 160 then bcdToDec (decToBcd v) =? v
                   else decToBcd v =? decToBcd (v - 160)))); [|exact Hv].
    vm_compute. reflexivity. }
  apply andb_prop in H. destruct H as [H1 H2]. apply Z.eqb_eq in H1.
  split; [exact H1|].
  destruct (Z.ltb_spec v 160) as [Hlt|Hge]; apply Z.eqb_eq in H2; split; intros; try lia;
    exact H2.
Qed.

Lemma bcd_roundtrip_mod_160_witness :
  0 <= 255 < 256 /\ bcdToDec (decToBcd 255) = 95 /\ decToBcd 255 = decToBcd 95.
Proof.
  split; [lia|].
  destruct (bcd_roundtrip_mod_160 255 ltac:(lia)) as (H1 & _ & H3).
  split; [rewrite H1; reflexivity|].
  rewrite (H3 ltac:(lia)). reflexivity.
Defined.

(** X2: encoding inverts decoding exactly on the bytes whose low nibble
    is a decimal digit: for every byte [b], [decToBcd (bcdToDec b) = b] if
    and only if [b mod 16 <= 9], whatever the high nibble; when both nibbles
    are decimal digits the decoded value is at most 99, and on every byte it
    is at most 165. *)
Theorem bcd_decode_encode (b : Z) :
  0 <= b < 256 ->
  (decToBcd (bcdToDec b) = b <-> b mod 16 <= 9) /\
  (valid_bcd b -> 0 <= bcdToDec b <= 99) /\
  0 <= bcdToDec b <= 165.
Proof.
  intro Hb.
  assert (H : (Bool.eqb (decToBcd (bcdToDec b) =? b) (b mod 16 <=? 9)
               && (if valid_bcdb b then bcdToDec b <=? 99 else true)
               && (0 <=? bcdToDec b) && (bcdToDec b <=? 165)) = true).
  { apply (byte_cases (fun b => Bool.eqb (decToBcd (bcdToDec b) =? b) (b mod 16 <=? 9)
               && (if valid_bcdb b then bcdToDec b <=? 99 else true)
               && (0 <=? bcdToDec b) && (bcdToDec b <=? 165))); [|exact Hb].
    vm_compute. reflexivity. }
  apply andb_prop in H. destruct H as [H H4].
  apply andb_prop in H. destruct H as [H H3].
  apply andb_prop in H. destruct H as [H1 H2].
  apply Z.leb_le in H3, H4. apply Bool.eqb_prop in H1.
  split; [|split; [|lia]].
  - rewrite <- Z.leb_le, <- H1. apply iff_sym, Z.eqb_eq.
  - intro Hval. apply valid_bcdb_spec in Hval. rewrite Hval in H2.
    apply Z.leb_le in H2. lia.
Qed.

Lemma bcd_decode_encode_witness :
  (0 <= 0x59 < 256 /\ valid_bcd 0x59) /\
  decToBcd (bcdToDec 0x59) = 0x59 /\ bcdToDec 0x59 <= 99.
Proof.
  assert (Hb : 0 <= 0x59 < 256) by lia.
  assert (Hv : valid_bcd 0x59) by (vm_compute; split; discriminate).
  split; [exact (conj Hb Hv)|].
  destruct (bcd_decode_encode 0x59 Hb) as (H1 & H2 & _).
  split; [apply H1; vm_compute; discriminate|apply (H2 Hv)].
Defined.

(** ** Initialisation *)

Lemma last_mode_app (p : Pin) (a b : list Event) :
  last_mode p (a ++ b) = fold_left (configure p) b (last_mode p a).
Proof. unfold last_mode. apply fold_left_app. Qed.

(** X3: from any world, and however the three lines are assigned to pins,
    [Init] leaves each of clock, data and chip-select configured as an
    output and last driven low; it issues six events, none of them a sample
    or a sleep, so calling it again changes neither mode nor level. *)
Theorem Init_outputs_low (D : Device) (d : DS1302) (w : World D) :
  let w1 := snd (Init d w) in
  let w2 := snd (Init d w1) in
  (forall p, p = clk d \/ p = dat d \/ p = rst d ->
     last_mode p (trace w1) = Some PinOutput /\ line_level p (trace w1) = Some false /\
     last_mode p (trace w2) = Some PinOutput /\ line_level p (trace w2) = Some false) /\
  length (trace w1) = (length (trace w) + 6)%nat /\
  sleep_total (trace w1) = sleep_total (trace w) /\
  Forall (fun e => match e with EvGet _ _ => False | _ => True end)
         (skipn (length (trace w)) (trace w1)).
Proof.
  cbv zeta.
  destruct (Init_run D d w) as [H1 _].
  destruct (Init_run D d (snd (Init d w))) as [H2 _].
  rewrite H2, H1. cbn [snd push trace].
  split; [|split; [|split]].
  - intros p Hp.
    rewrite !last_mode_app, !line_level_app. cbn [fold_left configure drive].
    destruct Hp as [ -> | [ -> | -> ] ]; rewrite ?Z.eqb_refl;
      destruct (clk d =? dat d), (clk d =? rst d), (dat d =? clk d), (dat d =? rst d),
               (rst d =? clk d), (rst d =? dat d); repeat split; reflexivity.
  - rewrite length_app. reflexivity.
  - induction (trace w) as [|e tr IH]; [reflexivity|].
    destruct e; cbn [app sleep_total]; rewrite ?IH; reflexivity.
  - rewrite skipn_app, skipn_all, Nat.sub_diag. cbn [app skipn].
    repeat constructor.
Qed.

(** ** The cost of a transaction *)










(** ** The direction of the data line *)

Lemma direction_ok_app (p : Pin) (a b : list Event) :
  forall m,
    direction_ok p m (a ++ b) =
    direction_ok p m a && direction_ok p (fold_left (configure p) a m) b.
Proof.
  induction a as [|e a IH]; intro m; [reflexivity|].
  destruct e; cbn [app direction_ok fold_left configure]; rewrite IH;
    try reflexivity; rewrite andb_assoc; reflexivity.
Qed.

Section DataLine.

Variable d : DS1302.
Hypothesis Hclk : dat d <> clk d.
Hypothesis Hrst : dat d <> rst d.

Lemma other_pins : (clk d =? dat d) = false /\ (rst d =? dat d) = false.
Proof. split; apply Z.eqb_neq; congruence. Qed.

(** A byte transfer sets the direction it needs before it uses the line,
    whatever the direction was. *)
Lemma write_cells_direction (bs : list bool) :
  direction_ok (dat d) (Some PinOutput) (flat_map (write_cell d) bs) = true /\
  fold_left (configure (dat d)) (flat_map (write_cell d) bs) (Some PinOutput)
  = Some PinOutput.
Proof.
  destruct other_pins as [Ec Er].
  induction bs as [|b bs [IH1 IH2]]; [split; reflexivity|].
  cbn [flat_map]. rewrite direction_ok_app, fold_left_app.
  assert (Hcell : direction_ok (dat d) (Some PinOutput) (write_cell d b) = true /\
                  fold_left (configure (dat d)) (write_cell d b) (Some PinOutput)
                  = Some PinOutput).
  { unfold write_cell, clock_pulse.
    destruct b; cbn [app direction_ok fold_left configure];
      rewrite ?Z.eqb_refl, ?Ec; split; reflexivity. }
  destruct Hcell as [H1 H2]. rewrite H1, H2. split; [exact IH1|exact IH2].
Qed.

Lemma writeByte_direction (data : Z) (m : option PinMode) :
  direction_ok (dat d) m (writeByte_events d data) = true /\
  fold_left (configure (dat d)) (writeByte_events d data) m = Some PinOutput.
Proof.
  unfold writeByte_events.
  pose proof (write_cells_direction (bits8 data)) as H.
  generalize dependent (flat_map (write_cell d) (bits8 data)). intros cells H.
  cbn [direction_ok fold_left configure].
  rewrite Z.eqb_refl. exact H.
Qed.

Lemma readByte_direction (bs : list bool) (m : option PinMode) :
  direction_ok (dat d) m (readByte_events d bs) = true /\
  fold_left (configure (dat d)) (readByte_events d bs) m = Some PinInput.
Proof.
  destruct other_pins as [Ec Er].
  unfold readByte_events. cbn [direction_ok fold_left configure].
  rewrite Z.eqb_refl. clear m.
  induction bs as [|b bs [IH1 IH2]]; [split; reflexivity|].
  cbn [flat_map]. rewrite direction_ok_app, fold_left_app.
  unfold read_cell at 1 3, clock_pulse.
  cbn [app direction_ok fold_left configure].
  rewrite ?Z.eqb_refl, ?Ec. cbn [negb orb andb]. split; [exact IH1|exact IH2].
Qed.

Lemma write_frame_direction (rv : Z * Z) (m : option PinMode) :
  direction_ok (dat d) m (write_frame d rv) = true.
Proof.
  destruct other_pins as [Ec Er]. unfold write_frame.
  rewrite !direction_ok_app, ?fold_left_app.
  cbn [direction_ok fold_left configure]. rewrite Er. cbn [negb orb andb].
  destruct (writeByte_direction (fst rv) m) as [H1 H2]. rewrite H1, H2.
  destruct (writeByte_direction (snd rv) (Some PinOutput)) as [H3 _]. rewrite H3.
  reflexivity.
Qed.

Lemma read_frame_direction (reg : Z) (bs : list bool) (m : option PinMode) :
  direction_ok (dat d) m (read_frame d reg bs) = true.
Proof.
  destruct other_pins as [Ec Er]. unfold read_frame.
  rewrite !direction_ok_app, ?fold_left_app.
  cbn [direction_ok fold_left configure]. rewrite Er. cbn [negb orb andb].
  destruct (writeByte_direction reg m) as [H1 H2]. rewrite H1, H2.
  destruct (readByte_direction bs (Some PinOutput)) as [H3 _]. rewrite H3.
  reflexivity.
Qed.

Lemma frames_direction {X : Type} (g : X -> list Event) (l : list X) :
  (forall x m, direction_ok (dat d) m (g x) = true) ->
  forall m, direction_ok (dat d) m (flat_map g l) = true.
Proof.
  intro Hg. induction l as [|x l IH]; intro m; [reflexivity|].
  cbn [flat_map]. rewrite direction_ok_app, Hg, IH. reflexivity.
Qed.

End DataLine.

(** The events of a sequence of calls. *)
Lemma run_calls_events (D : Device) (d : DS1302) (P : list Event -> Prop) :
  P [] ->
  (forall a b, P a -> P b -> P (a ++ b)) ->
  (forall w : World D, exists evs, snd (Init d w) = push w evs /\ P evs) ->
  (forall t (w : World D), exists evs, snd (SetTime d t w) = push w evs /\ P evs) ->
  (forall w : World D, exists evs, snd (ReadTime d w) = push w evs /\ P evs) ->
  forall cs (w : World D),
    exists evs, snd (run_calls (hardware d) cs w) = push w evs /\ P evs.
Proof.
  intros Hnil Happ HI HS HR cs.
  induction cs as [|c cs IH]; intro w.
  - exists []. split; [symmetry; apply push_nil|exact Hnil].
  - destruct c as [|t|]; cbn [run_calls hardware do_Init do_SetTime do_ReadTime];
      unfold bind.
    + destruct (HI w) as (e1 & E1 & P1). destruct (Init d w) as [u w1].
      cbn [snd] in E1. subst w1.
      destruct (IH (push w e1)) as (e2 & E2 & P2).
      exists (e1 ++ e2). rewrite E2, push_push. split; [reflexivity|apply Happ; assumption].
    + destruct (HS t w) as (e1 & E1 & P1). destruct (SetTime d t w) as [u w1].
      cbn [snd] in E1. subst w1.
      destruct (IH (push w e1)) as (e2 & E2 & P2).
      exists (e1 ++ e2). rewrite E2, push_push. split; [reflexivity|apply Happ; assumption].
    + destruct (HR w) as (e1 & E1 & P1). destruct (ReadTime d w) as [r w1].
      cbn [snd] in E1. subst w1.
      destruct (IH (push w e1)) as (e2 & E2 & P2).
      destruct (run_calls (hardware d) cs (push w e1)) as [ts w2].
      cbn [snd] in E2 |- *.
      exists (e1 ++ e2). rewrite E2, push_push. split; [reflexivity|apply Happ; assumption].
Qed.

(** X5: with the data line on a pin of its own, every sequence of [Init],
    [SetTime] and [ReadTime] calls, from any world and whatever direction
    the data line was left in, drives the data line only while it is
    configured as an output and samples it only while it is configured as an
    input: each byte transfer sets the direction itself before it uses the
    line. *)
Theorem data_line_direction (D : Device) (d : DS1302) (cs : list Call) (w : World D) :
  dat d <> clk d -> dat d <> rst d ->
  exists evs : list Event,
    snd (run_calls (hardware d) cs w) = push w evs /\
    forall m : option PinMode, direction_ok (dat d) m evs = true.
Proof.
  intros Hc Hr.
  apply (run_calls_events D d
           (fun evs => forall m, direction_ok (dat d) m evs = true)).
  - reflexivity.
  - intros a b Ha Hb m. rewrite direction_ok_app, Ha, Hb. reflexivity.
  - intro w0. destruct (Init_run D d w0) as [H _]. eexists. rewrite H.
    split; [reflexivity|]. intro m. cbn [direction_ok].
    rewrite Z.eqb_refl.
    destruct (other_pins d Hc Hr) as [Ec Er]. rewrite Ec, Er. reflexivity.
  - intros t w0. destruct (SetTime_run D d t w0) as [H _]. eexists. rewrite H.
    split; [reflexivity|]. apply frames_direction.
    intros rv m. apply write_frame_direction; assumption.
  - intro w0. destruct (ReadTime_run D d w0) as (bss & _ & _ & H & _).
    eexists. rewrite H. split; [reflexivity|].
    unfold ReadTime_events. apply frames_direction.
    intros rb m. apply read_frame_direction; assumption.
Qed.

Lemma data_line_direction_witness :
  let d := NewDS1302 18 19 5 in
  let w := sim_world d (fun _ => 0) in
  let cs := [CallSetTime (time.Date 2024 8 5 21 0 0 0); CallReadTime] in
  (dat d <> clk d /\ dat d <> rst d) /\
  direction_ok (dat d) None (trace (snd (run_calls (hardware d) cs w))) = true.
Proof.
  intros d w cs.
  assert (H1 : dat d <> clk d) by discriminate.
  assert (H2 : dat d <> rst d) by discriminate.
  split; [exact (conj H1 H2)|].
  destruct (data_line_direction (SimChip d) d cs w H1 H2) as (evs & E & Hok).
  rewrite E. cbn [push trace sim_world app]. apply Hok.
Defined.

(** ** What [ReadTime] can decode *)

Lemma bcdToDec_max (b : Z) : 0 <= b < 256 -> 0 <= bcdToDec b <= 165.
Proof.
  intro Hb.
  pose proof (byte_cases (fun x => (0 <=? bcdToDec x) && (bcdToDec x <=? 165))
                         eq_refl b Hb) as H.
  apply andb_prop in H. destruct H as [H1 H2].
  apply Z.leb_le in H1, H2. lia.
Qed.

Lemma masked_seconds_bound (raw : Z) : 0 <= bcdToDec (Z.land raw 0x7F) <= 85.
Proof.
  assert (Hm : 0 <= Z.land raw 0x7F < 128).
  { change 0x7F with (Z.ones 7). rewrite Z.land_ones by lia.
    apply Z.mod_pos_bound. reflexivity. }
  pose proof (all_below_spec (fun x => (0 <=? bcdToDec x) && (bcdToDec x <=? 85)) 128
                             eq_refl _ Hm) as H.
  apply andb_prop in H. destruct H as [H1 H2].
  apply Z.leb_le in H1, H2. lia.
Qed.

Lemma byte_of_8_bits (bs : list bool) : length bs = 8%nat -> 0 <= byte_of_bits bs < 256.
Proof.
  intro H. pose proof (byte_of_bits_range bs) as Hr. rewrite H in Hr. exact Hr.
Qed.

(** X6: whatever the device drives, every byte [readByte] and
    [readRegister] return is in [0 .. 255], and the values [ReadTime]
    decodes are bounded: seconds at most 85, minutes, hours, day and month
    at most 165, and the year between 2000 and 2165. *)
Theorem ReadTime_decoded_bounds (D : Device) (d : DS1302) (w : World D) :
  let v := fst (ReadTime_decode d w) in
  0 <= fst (readByte d w) < 256 /\
  (forall reg, 0 <= fst (readRegister d reg w) < 256) /\
  0 <= seconds v <= 85 /\
  0 <= minutes v <= 165 /\ 0 <= hours v <= 165 /\
  0 <= day v <= 165 /\ 0 <= month v <= 165 /\
  2000 <= year v <= 2165.
Proof.
  cbv zeta. split; [|split].
  - destruct (readByte_run D d w) as (bs & Hlen & H & _). rewrite H.
    apply byte_of_8_bits. exact Hlen.
  - intro reg. destruct (readRegister_run D d reg w) as (bs & Hlen & H & _).
    rewrite H. apply byte_of_8_bits. exact Hlen.
  - destruct (ReadTime_decode_run D d w) as (bss & L & F & H & _). rewrite H.
    cbn [fst]. unfold decode_raw. cbn [seconds minutes hours day month year].
    destruct bss as [|b1 [|b2 [|b3 [|b4 [|b5 [|b6 [|]]]]]]]; try discriminate L.
    repeat match goal with H : Forall _ (_ :: _) |- _ => inversion_clear H end.
    cbn [map nth].
    repeat match goal with
           | Hb : length ?b = 8%nat |- _ =>
               let Hr := fresh "Hr" in
               pose proof (byte_of_8_bits b Hb) as Hr;
               apply (bcdToDec_max (byte_of_bits b)) in Hr; clear Hb
           end.
    pose proof (masked_seconds_bound (byte_of_bits b1)).
    repeat split; lia.
Qed.

(** ** A data line that never answers *)

Lemma stuck_samples (b : bool) (evs : list Event) :
  forall s : dev_state (stuck b),
    sampled (stuck b) s evs ->
    Forall (fun e => match e with EvGet _ v => v = b | _ => True end) evs.
Proof.
  induction evs as [|e evs IH]; intros s Hs; [constructor|].
  cbn [sampled] in Hs. destruct Hs as [He Hs].
  constructor; [destruct e; trivial|]. apply (IH _ Hs).
Qed.

Lemma stuck_read_frame (b : bool) (d : DS1302) (reg : Z) (bs : list bool) :
  Forall (fun e => match e with EvGet _ v => v = b | _ => True end)
         (read_frame d reg bs) ->
  bs = repeat b (length bs).
Proof.
  unfold read_frame, readByte_events. intro H.
  apply Forall_app in H. destruct H as [_ H].
  apply Forall_app in H. destruct H as [_ H].
  apply Forall_app in H. destruct H as [H _].
  inversion_clear H as [|? ? _ H']. clear - H'.
  induction bs as [|x bs IH]; [reflexivity|].
  cbn [flat_map] in H'. apply Forall_app in H'. destruct H' as [Hx H'].
  unfold read_cell, clock_pulse in Hx. cbn [app] in Hx.
  inversion_clear Hx as [|? ? _ Hx1]. inversion_clear Hx1 as [|? ? _ Hx2].
  inversion_clear Hx2 as [|? ? Hx3 _].
  cbn [length repeat]. rewrite Hx3, <- (IH H'). reflexivity.
Qed.

(** X7: when the data line is stuck, [ReadTime] reports no fault.  With
    the line stuck low (no chip answering) every register reads 0x00 and
    the timestamp returned is [time.Date(2000, 0, 0, 0, 0, 0)], that is
    1999-11-30 00:00:00; with the line stuck high every register reads 0xFF
    and the decoded values are 85 seconds, 165 minutes, hours, days and
    months and year 2165, which [time.Date] normalizes to
    2179-02-18 23:46:25. *)
Theorem ReadTime_stuck_line (b : bool) (d : DS1302) (w : World (stuck b)) :
  (forall reg, fst (readRegister d reg w) = if b then 0xFF else 0x00) /\
  fst (ReadTime_decode d w) =
    (if b then mkDecoded 85 165 165 165 165 2165 else mkDecoded 0 0 0 0 0 2000) /\
  fields (fst (ReadTime d w)) =
    (if b then [2179; 2; 18; 23; 46; 25] else [1999; 11; 30; 0; 0; 0]).
Proof.
  assert (Hbyte : forall bs, length bs = 8%nat -> bs = repeat b (length bs) ->
                             byte_of_bits bs = if b then 0xFF else 0x00).
  { intros bs Hlen Hbs. rewrite Hbs, Hlen. destruct b; reflexivity. }
  assert (Hdec : fst (ReadTime_decode d w) =
                 (if b then mkDecoded 85 165 165 165 165 2165
                  else mkDecoded 0 0 0 0 0 2000)).
  { destruct (ReadTime_decode_run (stuck b) d w) as (bss & L & F & H & S).
    rewrite H. cbn [fst].
    apply stuck_samples in S. unfold ReadTime_events, ReadTime_reads in S.
    destruct bss as [|b1 [|b2 [|b3 [|b4 [|b5 [|b6 [|]]]]]]]; try discriminate L.
    repeat match goal with H : Forall _ (_ :: _) |- _ => inversion_clear H end.
    cbn [combine flat_map fst snd] in S.
    repeat (apply Forall_app in S;
            let S1 := fresh "S" in destruct S as [S1 S];
            apply stuck_read_frame in S1).
    cbn [map].
    repeat match goal with
           | Hb : length ?x = 8%nat, Hs : ?x = repeat b (length ?x) |- _ =>
               rewrite (Hbyte x Hb Hs); clear Hb Hs
           end.
    destruct b; reflexivity. }
  split; [|split; [exact Hdec|]].
  - intro reg. destruct (readRegister_run (stuck b) d reg w) as (bs & Hlen & H & S).
    rewrite H. cbn [fst]. apply Hbyte; [exact Hlen|].
    apply stuck_samples in S. apply stuck_read_frame in S. exact S.
  - rewrite ReadTime_assemble. cbn [fst]. rewrite Hdec.
    destruct b; vm_compute; reflexivity.
Qed.

(** ** Registers of the simulated chip *)

Section SimulatedDriver.

Variable d : DS1302.
Hypothesis Hpins : distinct_pins d.

Lemma sim_writeRegister (reg v : Z) (w : World (SimChip d)) :
  0 <= reg < 256 -> Z.even reg = true -> 0 <= v < 256 ->
  dev (snd (writeRegister d reg v w)) = chip_written (dev w) (reg, v).
Proof.
  intros Hr He Hv.
  destruct (writeRegister_run (SimChip d) d reg v w) as [H _]. rewrite H.
  cbn [snd push dev]. apply (sim_write_frame d Hpins reg v (dev w) Hr He Hv).
Qed.

Lemma sim_readRegister (reg : Z) (w : World (SimChip d)) :
  0 <= reg < 256 -> Z.odd reg = true ->
  fst (readRegister d reg w) = regs (dev w) (reg - 1) mod 256 /\
  regs (dev (snd (readRegister d reg w))) = regs (dev w) /\
  cmds (dev (snd (readRegister d reg w))) = cmds (dev w) ++ [reg].
Proof.
  intros Hr Ho.
  destruct (readRegister_run (SimChip d) d reg w) as (bs & Hlen & H & S).
  rewrite H. cbn [fst snd push dev].
  destruct (sim_read_frame d Hpins reg bs (dev w) Hr Ho Hlen S) as [Hbs Hrun].
  rewrite Hrun, Hbs, byte_of_bits8_mod. cbn [regs cmds]. auto.
Qed.

Lemma sim_ReadTime_decode (w : World (SimChip d)) :
  fst (ReadTime_decode d w) =
  decode_raw (map (fun r => regs (dev w) (r - 1) mod 256) ReadTime_reads).
Proof.
  destruct (ReadTime_decode_run (SimChip d) d w) as (bss & L & F & H & S).
  rewrite H. cbn [fst]. unfold ReadTime_events in S.
  destruct bss as [|b1 [|b2 [|b3 [|b4 [|b5 [|b6 [|]]]]]]]; try discriminate L.
  assert (Hok : Forall read_ok (combine ReadTime_reads [b1; b2; b3; b4; b5; b6])).
  { repeat match goal with H : Forall _ (_ :: _) |- _ => inversion_clear H end.
    unfold ReadTime_reads, read_ok. cbn [combine].
    repeat constructor; cbn [fst snd]; try reflexivity; try lia; assumption. }
  destruct (sim_read_frames d Hpins _ Hok (dev w) S) as (Hb & _ & _).
  unfold ReadTime_reads in Hb |- *. cbn [combine map fst snd] in Hb |- *.
  injection Hb as -> -> -> -> -> ->.
  rewrite !byte_of_bits8_mod. reflexivity.
Qed.

Lemma sim_SetTime_regs (t : time.Time) (w : World (SimChip d)) :
  regs (dev (snd (SetTime d t w))) = regs_SetTime (regs (dev w)) t.
Proof.
  destruct (sim_SetTime d Hpins t w) as (w' & E & Hd).
  rewrite E. cbn [snd]. rewrite Hd. reflexivity.
Qed.

Lemma sim_ReadTime_value (w : World (SimChip d)) :
  fst (ReadTime d w) = regs_ReadTime (regs (dev w)) /\
  regs (dev (snd (ReadTime d w))) = regs (dev w).
Proof.
  destruct (sim_ReadTime d Hpins w) as (w' & E & Hr & _).
  rewrite E. cbn [fst snd]. split; [reflexivity|exact Hr].
Qed.

Lemma sim_Init_regs (w : World (SimChip d)) :
  regs (dev (snd (Init d w))) = regs (dev w).
Proof.
  destruct (Init_run (SimChip d) d w) as [H _]. rewrite H.
  cbn [snd push dev dev_run fold_left dev_step SimChip chip_step].
  repeat match goal with
         | |- context [if ?c then _ else _] => destruct c
         end;
    unfold chip_deselect, chip_fall, chip_data;
    repeat match goal with
           | |- context [if ?c then _ else _] => destruct c
           end; reflexivity.
Qed.

End SimulatedDriver.

(** X8: against the simulated chip, a register written is the register
    read back: for every even byte address [reg] and every byte [v],
    [readRegister (reg + 1)] after [writeRegister reg v] returns [v]; any
    other register still reads as before the write; and a read changes no
    register. *)
Theorem register_write_read (d : DS1302) (w : World (SimChip d)) (reg v : Z) :
  distinct_pins d ->
  0 <= reg < 256 -> Z.even reg = true -> 0 <= v < 256 ->
  let w1 := snd (writeRegister d reg v w) in
  fst (readRegister d (reg + 1) w1) = v /\
  (forall a, 0 <= a < 256 -> Z.even a = true -> a <> reg ->
     fst (readRegister d (a + 1) w1) = fst (readRegister d (a + 1) w)) /\
  (forall r, 0 <= r < 256 -> Z.odd r = true ->
     regs (dev (snd (readRegister d r w1))) = regs (dev w1)).
Proof.
  intros Hp Hr He Hv. cbv zeta.
  pose proof (sim_writeRegister d Hp reg v w Hr He Hv) as Hw.
  assert (Hodd : forall a, 0 <= a < 256 -> Z.even a = true ->
                           0 <= a + 1 < 256 /\ Z.odd (a + 1) = true).
  { intros a Ha Hea. rewrite Z.odd_add, <- Z.negb_even, Hea.
    split; [|reflexivity].
    destruct (Z.eq_dec a 255) as [->|]; [discriminate Hea|lia]. }
  split; [|split].
  - destruct (Hodd reg Hr He) as [H1 H2].
    destruct (sim_readRegister d Hp (reg + 1) (snd (writeRegister d reg v w)) H1 H2)
      as (E & _ & _).
    rewrite E, Hw. cbn [chip_written regs fst snd]. unfold store.
    replace (reg + 1 - 1) with reg by ring.
    rewrite Z.eqb_refl. apply Z.mod_small. exact Hv.
  - intros a Ha Hea Hne. destruct (Hodd a Ha Hea) as [H1 H2].
    destruct (sim_readRegister d Hp (a + 1) (snd (writeRegister d reg v w)) H1 H2)
      as (E & _ & _).
    destruct (sim_readRegister d Hp (a + 1) w H1 H2) as (E' & _ & _).
    rewrite E, E', Hw. cbn [chip_written regs fst snd]. unfold store.
    replace (a + 1 - 1) with a by ring.
    destruct (Z.eqb_spec a reg); [contradiction|reflexivity].
  - intros r Hrr Hor.
    destruct (sim_readRegister d Hp r (snd (writeRegister d reg v w)) Hrr Hor)
      as (_ & E & _).
    exact E.
Qed.

Lemma register_write_read_witness :
  let d := NewDS1302 18 19 5 in
  let w := sim_world d (fun _ => 0) in
  (distinct_pins d /\ 0 <= 0x82 < 256 /\ Z.even 0x82 = true /\ 0 <= 0x59 < 256) /\
  fst (readRegister d 0x83 (snd (writeRegister d 0x82 0x59 w))) = 0x59.
Proof.
  intros d w.
  assert (Hp : distinct_pins d) by (repeat split; discriminate).
  assert (H1 : 0 <= 0x82 < 256) by lia.
  assert (H2 : Z.even 0x82 = true) by reflexivity.
  assert (H3 : 0 <= 0x59 < 256) by lia.
  split; [exact (conj Hp (conj H1 (conj H2 H3)))|].
  destruct (register_write_read d w 0x82 0x59 Hp H1 H2 H3) as (E & _).
  exact E.
Defined.

(** The seven registers [SetTime] writes. *)
Lemma regs_SetTime_spec (m : Z -> Z) (t : time.Time) (a : Z) :
  regs_SetTime m t a =
  if a =? 0x8E then 0x80
  else if a =? 0x8C then decToBcd (wrap8 (time.Year t - 2000))
  else if a =? 0x88 then decToBcd (wrap8 (time.Month t))
  else if a =? 0x86 then decToBcd (wrap8 (time.Day t))
  else if a =? 0x84 then decToBcd (wrap8 (time.Hour t))
  else if a =? 0x82 then decToBcd (wrap8 (time.Minute t))
  else if a =? 0x80 then decToBcd (wrap8 (time.Second t))
  else m a.
Proof.
  unfold regs_SetTime, SetTime_writes. cbn [fold_left fst snd]. unfold store.
  destruct (a =? 0x8E) eqn:E; [reflexivity|].
  repeat match goal with
         | |- context [a =? ?k] => destruct (a =? k); [reflexivity|]
         end.
  reflexivity.
Qed.

(** X9: against the simulated chip, [SetTime] leaves the write-protect
    register (0x8E) at 0x80 and the six time registers at the encodings of
    its argument, and changes no other register; what an earlier [SetTime]
    wrote is overwritten entirely. *)
Theorem SetTime_registers (d : DS1302) (w : World (SimChip d)) (t : time.Time) :
  distinct_pins d ->
  let m' := regs (dev (snd (SetTime d t w))) in
  m' DS1302_WP_WRITE = 0x80 /\
  m' DS1302_SECONDS_WRITE = decToBcd (wrap8 (time.Second t)) /\
  m' DS1302_MINUTES_WRITE = decToBcd (wrap8 (time.Minute t)) /\
  m' DS1302_HOURS_WRITE = decToBcd (wrap8 (time.Hour t)) /\
  m' DS1302_DATE_WRITE = decToBcd (wrap8 (time.Day t)) /\
  m' DS1302_MONTH_WRITE = decToBcd (wrap8 (time.Month t)) /\
  m' DS1302_YEAR_WRITE = decToBcd (wrap8 (time.Year t - 2000)) /\
  (forall a, ~ In a [0x80; 0x82; 0x84; 0x86; 0x88; 0x8C; 0x8E] ->
     m' a = regs (dev w) a) /\
  (forall t0 a, regs (dev (snd (SetTime d t (snd (SetTime d t0 w))))) a = m' a).
Proof.
  intro Hp. cbv zeta. rewrite sim_SetTime_regs by exact Hp.
  repeat (split; [rewrite regs_SetTime_spec; reflexivity|]).
  split.
  - intros a Ha. rewrite regs_SetTime_spec. cbn [In] in Ha.
    repeat match goal with
           | |- context [a =? ?k] =>
               destruct (Z.eqb_spec a k); [exfalso; apply Ha; auto 10|]
           end.
    reflexivity.
  - intros t0 a. rewrite !sim_SetTime_regs by exact Hp.
    rewrite !regs_SetTime_spec.
    repeat match goal with
           | |- context [a =? ?k] => destruct (a =? k); [reflexivity|]
           end.
    reflexivity.
Qed.

Lemma SetTime_registers_witness :
  let d := NewDS1302 18 19 5 in
  let w := sim_world d (fun _ => 0x55) in
  let t := time.Date 2024 8 5 21 0 0 0 in
  distinct_pins d /\
  regs (dev (snd (SetTime d t w))) 0x8E = 0x80 /\
  regs (dev (snd (SetTime d t w))) 0x8A = 0x55.
Proof.
  intros d w t.
  assert (Hp : distinct_pins d) by (repeat split; discriminate).
  split; [exact Hp|].
  destruct (SetTime_registers d w t Hp) as (E1 & _ & _ & _ & _ & _ & _ & E2 & _).
  split; [exact E1|].
  rewrite E2; [reflexivity|].
  cbn [In]. intros [H|[H|[H|[H|[H|[H|[H|[]]]]]]]]; discriminate H.
Defined.

(** X10: against the simulated chip, [ReadTime] is read-only: it changes
    no register, and calling it again returns the same timestamp. *)
Theorem ReadTime_read_only (d : DS1302) (w : World (SimChip d)) :
  distinct_pins d ->
  let w1 := snd (ReadTime d w) in
  regs (dev w1) = regs (dev w) /\
  fst (ReadTime d w1) = fst (ReadTime d w) /\
  fst (ReadTime_decode d w1) = fst (ReadTime_decode d w).
Proof.
  intro Hp. cbv zeta.
  destruct (sim_ReadTime_value d Hp w) as [E1 R1].
  destruct (sim_ReadTime_value d Hp (snd (ReadTime d w))) as [E2 _].
  split; [exact R1|]. split.
  - rewrite E2, E1, R1. reflexivity.
  - rewrite !sim_ReadTime_decode by exact Hp. rewrite R1. reflexivity.
Qed.

Lemma ReadTime_read_only_witness :
  let d := NewDS1302 18 19 5 in
  let w := sim_world d (chip_registers 0x00 0x00 0x21 0x05 0x08 0x24) in
  distinct_pins d /\
  fields (fst (ReadTime d (snd (ReadTime d w)))) = [2024; 8; 5; 21; 0; 0].
Proof.
  intros d w.
  assert (Hp : distinct_pins d) by (repeat split; discriminate).
  split; [exact Hp|].
  destruct (ReadTime_read_only d w Hp) as (_ & E & _).
  rewrite E. vm_compute. reflexivity.
Defined.

(** ** Setting and reading any timestamp *)

Lemma month_length_max (leap : bool) (m : Z) :
  1 <= m <= 12 -> month_length leap m <= 31.
Proof.
  intro Hm.
  assert (E : m = 1 \/ m = 2 \/ m = 3 \/ m = 4 \/ m = 5 \/ m = 6 \/ m = 7 \/ m = 8
              \/ m = 9 \/ m = 10 \/ m = 11 \/ m = 12) by lia.
  destruct leap; repeat (destruct E as [->|E]; [vm_compute; discriminate|]);
    subst m; vm_compute; discriminate.
Qed.

(** The fields of every timestamp are in their calendar ranges. *)
Lemma accessor_ranges (t : time.Time) :
  0 <= time.Second t <= 59 /\ 0 <= time.Minute t <= 59 /\ 0 <= time.Hour t <= 23 /\
  1 <= time.Day t <= 31 /\ 1 <= time.Month t <= 12.
Proof.
  destruct (clock_decompose (time.abs t)) as (Hh & Hmi & Hs & _).
  unfold time.Second, time.Minute, time.Hour, time.Day, time.Month.
  rewrite absDate_split.
  destruct (split_days_spec (time.abs t / time.secondsPerDay))
    as (q & yy & yday & Hsp & Hyy & Hyday & _).
  rewrite Hsp. cbv zeta. rewrite isLeap_absolute.
  destruct (month_day_spec (cycle_leap yy) yday Hyday) as (m & dd & Hmd & Hm & Hdd & _).
  rewrite Hmd.
  pose proof (month_length_max (cycle_leap yy) m Hm).
  repeat split; lia.
Qed.

(** The registers [SetTime] leaves behind, as [ReadTime] decodes them. *)
Lemma decode_after_SetTime (m : Z -> Z) (t : time.Time) :
  decode_raw (map (fun r => regs_SetTime m t (r - 1) mod 256) ReadTime_reads) =
  mkDecoded (time.Second t) (time.Minute t) (time.Hour t) (time.Day t) (time.Month t)
            (2000 + ((time.Year t - 2000) mod 256) mod 160).
Proof.
  destruct (accessor_ranges t) as (Hs & Hmi & Hh & Hd & Hmo).
  assert (Hraw : map (fun r => regs_SetTime m t (r - 1) mod 256) ReadTime_reads =
                 [decToBcd (wrap8 (time.Second t)) mod 256;
                  decToBcd (wrap8 (time.Minute t)) mod 256;
                  decToBcd (wrap8 (time.Hour t)) mod 256;
                  decToBcd (wrap8 (time.Day t)) mod 256;
                  decToBcd (wrap8 (time.Month t)) mod 256;
                  decToBcd (wrap8 (time.Year t - 2000)) mod 256])
    by reflexivity.
  rewrite Hraw. unfold decode_raw. cbn [nth].
  rewrite seconds_codec by exact Hs.
  rewrite !field_codec by lia.
  rewrite (Z.mod_small (decToBcd (wrap8 (time.Year t - 2000))))
    by apply decToBcd_range.
  rewrite bcd_inverse_mod_160 by apply wrap8_range.
  reflexivity.
Qed.

Lemma ReadTime_after_SetTime (m : Z -> Z) (t : time.Time) :
  2000 <= time.Year t <= 2159 ->
  regs_ReadTime (regs_SetTime m t) = time.mkTime (time.abs t) 0.
Proof.
  intro Hy. unfold regs_ReadTime. rewrite decode_after_SetTime.
  unfold assemble. cbn [seconds minutes hours day month year].
  rewrite (Z.mod_small (time.Year t - 2000) 256) by lia.
  rewrite (Z.mod_small (time.Year t - 2000) 160) by lia.
  replace (2000 + (time.Year t - 2000)) with (time.Year t) by ring.
  apply Date_of_fields.
Qed.

(** X11: against the simulated chip, for every timestamp whatever its
    year, [ReadTime] after [SetTime] decodes the second, minute, hour, day
    and month of the timestamp, and the year
    [2000 + ((year - 2000) mod 256) mod 160]; so for the years 2000 to 2159
    (not only to 2099) the timestamp returned is the one set, in UTC and
    without its nanoseconds. *)
Theorem SetTime_ReadTime_any_year (d : DS1302) (w : World (SimChip d)) (t : time.Time) :
  distinct_pins d ->
  let w1 := snd (SetTime d t w) in
  fst (ReadTime_decode d w1) =
    mkDecoded (time.Second t) (time.Minute t) (time.Hour t) (time.Day t) (time.Month t)
              (2000 + ((time.Year t - 2000) mod 256) mod 160) /\
  (2000 <= time.Year t <= 2159 ->
   fst (ReadTime d w1) = time.mkTime (time.abs t) 0).
Proof.
  intro Hp. cbv zeta. split.
  - rewrite sim_ReadTime_decode, sim_SetTime_regs by exact Hp.
    apply decode_after_SetTime.
  - intro Hy.
    destruct (sim_ReadTime_value d Hp (snd (SetTime d t w))) as [E _].
    rewrite E, sim_SetTime_regs by exact Hp.
    apply ReadTime_after_SetTime. exact Hy.
Qed.

Lemma SetTime_ReadTime_any_year_witness :
  let d := NewDS1302 18 19 5 in
  let w := sim_world d (fun _ => 0) in
  let t := time.Date 2150 12 31 23 59 59 999 in
  (distinct_pins d /\ 2000 <= time.Year t <= 2159) /\
  fields (fst (ReadTime d (snd (SetTime d t w)))) = [2150; 12; 31; 23; 59; 59] /\
  year (fst (ReadTime_decode d (snd (SetTime d (time.Date 1999 1 1 0 0 0 0) w)))) = 2095.
Proof.
  intros d w t.
  assert (Hp : distinct_pins d) by (repeat split; discriminate).
  assert (Hy : 2000 <= time.Year t <= 2159) by (vm_compute; split; discriminate).
  split; [exact (conj Hp Hy)|].
  destruct (SetTime_ReadTime_any_year d w t Hp) as (_ & E).
  rewrite (E Hy).
  destruct (SetTime_ReadTime_any_year d w (time.Date 1999 1 1 0 0 0 0) Hp) as (E' & _).
  rewrite E'. split; vm_compute; reflexivity.
Defined.

(** ** Sequences of calls against the simulated chip *)

Lemma sim_run_calls (d : DS1302) (cs : list Call) :
  distinct_pins d ->
  forall w : World (SimChip d),
    fst (run_calls (hardware d) cs w) = ref_calls (regs (dev w)) cs /\
    regs (dev (snd (run_calls (hardware d) cs w))) = regs_calls (regs (dev w)) cs.
Proof.
  intro Hp. induction cs as [|c cs IH]; intro w; [split; reflexivity|].
  destruct c as [|t|];
    cbn [run_calls ref_calls regs_calls hardware do_Init do_SetTime do_ReadTime];
    unfold bind.
  - pose proof (sim_Init_regs d w) as E. destruct (Init d w) as [u w1].
    cbn [snd] in E. rewrite <- E. apply IH.
  - pose proof (sim_SetTime_regs d Hp t w) as E. destruct (SetTime d t w) as [u w1].
    cbn [snd] in E. rewrite <- E. apply IH.
  - destruct (sim_ReadTime_value d Hp w) as [E R]. destruct (ReadTime d w) as [r w1].
    cbn [fst snd] in E, R. destruct (IH w1) as [IH1 IH2].
    destruct (run_calls (hardware d) cs w1) as [ts w2].
    cbn [fst snd] in *. unfold ret. cbn [fst snd].
    rewrite IH1, IH2, R, E. split; reflexivity.
Qed.

(** X12: against the simulated chip the bit-level driver refines its
    register-level description.  For every sequence of [Init], [SetTime]
    and [ReadTime] calls, the timestamps the [ReadTime] calls return and
    the registers the chip ends with are those of the sequence run directly
    on the register contents: [Init] changes no register, [SetTime] stores
    its seven bytes, [ReadTime] decodes the six time registers. *)
Theorem driver_refines_registers (d : DS1302) (cs : list Call) (w : World (SimChip d)) :
  distinct_pins d ->
  fst (run_calls (hardware d) cs w) = ref_calls (regs (dev w)) cs /\
  regs (dev (snd (run_calls (hardware d) cs w))) = regs_calls (regs (dev w)) cs.
Proof. intro Hp. apply sim_run_calls. exact Hp. Qed.

Lemma driver_refines_registers_witness :
  let d := NewDS1302 18 19 5 in
  let w := sim_world d (fun _ => 0) in
  let t := time.Date 2024 8 5 21 0 0 0 in
  distinct_pins d /\
  map fields (fst (run_calls (hardware d) [CallReadTime; CallInit; CallSetTime t; CallReadTime] w))
  = [[1999; 11; 30; 0; 0; 0]; [2024; 8; 5; 21; 0; 0]].
Proof.
  intros d w t.
  assert (Hp : distinct_pins d) by (repeat split; discriminate).
  split; [exact Hp|].
  destruct (driver_refines_registers d [CallReadTime; CallInit; CallSetTime t; CallReadTime]
                                     w Hp) as [E _].
  rewrite E. vm_compute. reflexivity.
Defined.

(** X13: against the simulated chip, after [SetTime t] with a year from
    2000 to 2159, every [ReadTime] returns [t] (in UTC, without its
    nanoseconds) until the next [SetTime], however many [Init] and
    [ReadTime] calls come in between. *)
Theorem ReadTime_returns_last_SetTime
        (d : DS1302) (w : World (SimChip d)) (t : time.Time) (cs : list Call) :
  distinct_pins d ->
  2000 <= time.Year t <= 2159 ->
  Forall (fun c => is_set c = false) cs ->
  fst (run_calls (hardware d) (CallSetTime t :: cs) w) =
  map (fun _ => time.mkTime (time.abs t) 0) (filter is_read cs).
Proof.
  intros Hp Hy Hcs.
  destruct (sim_run_calls d (CallSetTime t :: cs) Hp w) as [E _].
  rewrite E. clear E. cbn [ref_calls].
  generalize (regs (dev w)). intro m.
  induction Hcs as [|c cs Hc _ IH]; [reflexivity|].
  destruct c as [|t'|]; cbn [ref_calls filter is_read map].
  - exact IH.
  - discriminate Hc.
  - rewrite ReadTime_after_SetTime by exact Hy. rewrite IH. reflexivity.
Qed.

Lemma ReadTime_returns_last_SetTime_witness :
  let d := NewDS1302 18 19 5 in
  let w := sim_world d (fun _ => 0) in
  let t := time.Date 2024 8 5 21 0 0 0 in
  let cs := [CallReadTime; CallInit; CallReadTime] in
  (distinct_pins d /\ 2000 <= time.Year t <= 2159 /\
   Forall (fun c => is_set c = false) cs) /\
  map fields (fst (run_calls (hardware d) (CallSetTime t :: cs) w)) =
  [[2024; 8; 5; 21; 0; 0]; [2024; 8; 5; 21; 0; 0]].
Proof.
  intros d w t cs.
  assert (Hp : distinct_pins d) by (repeat split; discriminate).
  assert (Hy : 2000 <= time.Year t <= 2159) by (vm_compute; split; discriminate).
  assert (Hcs : Forall (fun c => is_set c = false) cs) by (repeat constructor).
  split; [exact (conj Hp (conj Hy Hcs))|].
  rewrite (ReadTime_returns_last_SetTime d w t cs Hp Hy Hcs).
  vm_compute. reflexivity.
Defined.

(** ** Pulses and configuration *)

Lemma raises_app (p : Pin) (a b : list Event) :
  raises p (a ++ b) = raises p a + raises p b.
Proof.
  induction a as [|e a IH]; [reflexivity|].
  destruct e; cbn [app raises]; rewrite IH; lia.
Qed.

Lemma raises_cells {X : Type} (p : Pin) (g : X -> list Event) (c : Z) (l : list X) :
  (forall x, raises p (g x) = c) ->
  raises p (flat_map g l) = c * Z.of_nat (length l).
Proof.
  intro Hg. induction l as [|x l IH]; [simpl; lia|].
  cbn [flat_map length]. rewrite raises_app, Hg, IH, Nat2Z.inj_succ. lia.
Qed.

Lemma mode_kept (p : Pin) (evs : list Event) (m : option PinMode) :
  Forall (fun e => configures p e = false) evs ->
  fold_left (configure p) evs m = m.
Proof.
  intro H. revert m. induction H as [|e evs He _ IH]; intro m; [reflexivity|].
  cbn [fold_left]. rewrite IH.
  destruct e; simpl in *; try reflexivity. rewrite He. reflexivity.
Qed.

Section Pulses.

Variable d : DS1302.
Hypothesis Hpins : distinct_pins d.

Lemma pin_tests_all :
  (clk d =? rst d) = false /\ (dat d =? rst d) = false /\ (dat d =? clk d) = false /\
  (rst d =? clk d) = false /\ (rst d =? dat d) = false /\ (clk d =? dat d) = false.
Proof.
  destruct Hpins as (H1 & H2 & H3).
  repeat split; apply Z.eqb_neq; congruence.
Qed.

(** The pulses of a byte transfer: none on chip-select, eight on the
    clock; and the only pin it configures is the data pin. *)
Lemma write_cells_pulses (bs : list bool) :
  raises (rst d) (flat_map (write_cell d) bs) = 0 /\
  raises (clk d) (flat_map (write_cell d) bs) = Z.of_nat (length bs) /\
  forall p, p <> dat d ->
    Forall (fun e => configures p e = false) (flat_map (write_cell d) bs).
Proof.
  destruct pin_tests_all as (E1 & E2 & E3 & E4 & E5 & E6).
  split; [|split].
  - rewrite (raises_cells (rst d) (write_cell d) 0); [lia|].
    intros []; unfold write_cell, clock_pulse; cbn [app raises];
      rewrite ?E1, ?E2; reflexivity.
  - rewrite (raises_cells (clk d) (write_cell d) 1); [lia|].
    intros []; unfold write_cell, clock_pulse; cbn [app raises];
      rewrite ?Z.eqb_refl, ?E3; reflexivity.
  - intros p Hp. apply Forall_flat_map. apply Forall_forall. intros b _.
    unfold write_cell, clock_pulse. destruct b; repeat constructor.
Qed.

Lemma read_cells_pulses (bs : list bool) :
  raises (rst d) (flat_map (read_cell d) bs) = 0 /\
  raises (clk d) (flat_map (read_cell d) bs) = Z.of_nat (length bs) /\
  forall p, p <> dat d ->
    Forall (fun e => configures p e = false) (flat_map (read_cell d) bs).
Proof.
  destruct pin_tests_all as (E1 & E2 & E3 & E4 & E5 & E6).
  split; [|split].
  - rewrite (raises_cells (rst d) (read_cell d) 0); [lia|].
    intro b; unfold read_cell, clock_pulse; cbn [app raises];
      rewrite ?E1, ?E2; reflexivity.
  - rewrite (raises_cells (clk d) (read_cell d) 1); [lia|].
    intro b; unfold read_cell, clock_pulse; cbn [app raises];
      rewrite ?Z.eqb_refl, ?E3; reflexivity.
  - intros p Hp. apply Forall_flat_map. apply Forall_forall. intros b _.
    unfold read_cell, clock_pulse. repeat constructor.
Qed.

Lemma write_frame_pulses (rv : Z * Z) :
  raises (rst d) (write_frame d rv) = 1 /\
  raises (clk d) (write_frame d rv) = 16 /\
  forall p, p <> dat d -> Forall (fun e => configures p e = false) (write_frame d rv).
Proof.
  destruct pin_tests_all as (E1 & E2 & E3 & E4 & E5 & E6).
  unfold write_frame, writeByte_events.
  destruct (write_cells_pulses (bits8 (fst rv))) as (A1 & A2 & A3).
  destruct (write_cells_pulses (bits8 (snd rv))) as (B1 & B2 & B3).
  rewrite bits8_length in A2, B2.
  generalize dependent (flat_map (write_cell d) (bits8 (fst rv))). intros c1 A1 A2 A3.
  generalize dependent (flat_map (write_cell d) (bits8 (snd rv))). intros c2 B1 B2 B3.
  rewrite !raises_app. cbn [raises]. rewrite A1, A2, B1, B2, ?Z.eqb_refl, ?E4.
  split; [reflexivity|]. split; [reflexivity|].
  intros p Hp.
  assert (Ep : (dat d =? p) = false) by (apply Z.eqb_neq; congruence).
  repeat (apply Forall_app; split); repeat constructor;
    try (cbn [configures]; exact Ep); auto.
Qed.

Lemma read_frame_pulses (reg : Z) (bs : list bool) :
  length bs = 8%nat ->
  raises (rst d) (read_frame d reg bs) = 1 /\
  raises (clk d) (read_frame d reg bs) = 16 /\
  forall p, p <> dat d -> Forall (fun e => configures p e = false) (read_frame d reg bs).
Proof.
  intro Hlen.
  destruct pin_tests_all as (E1 & E2 & E3 & E4 & E5 & E6).
  unfold read_frame, writeByte_events, readByte_events.
  destruct (write_cells_pulses (bits8 reg)) as (A1 & A2 & A3).
  destruct (read_cells_pulses bs) as (B1 & B2 & B3).
  rewrite bits8_length in A2. rewrite Hlen in B2.
  generalize dependent (flat_map (write_cell d) (bits8 reg)). intros c1 A1 A2 A3.
  generalize dependent (flat_map (read_cell d) bs). intros c2 B1 B2 B3.
  rewrite !raises_app. cbn [raises]. rewrite A1, A2, B1, B2, ?Z.eqb_refl, ?E4.
  split; [reflexivity|]. split; [reflexivity|].
  intros p Hp.
  assert (Ep : (dat d =? p) = false) by (apply Z.eqb_neq; congruence).
  repeat (apply Forall_app; split); repeat constructor;
    try (cbn [configures]; exact Ep); auto.
Qed.

End Pulses.

(** X14: with the three lines on three different pins, every
    [writeRegister] and every [readRegister] raises chip-select once and
    the clock sixteen times, whatever the address and the data; [SetTime]
    makes 8 chip-select pulses and 128 clock pulses, [ReadTime] 6 and 96.
    None of the four configures the clock pin or the chip-select pin: their
    direction is the one [Init], or whoever ran before, left. *)
Theorem pulses_per_transaction (D : Device) (d : DS1302) (w : World D) :
  distinct_pins d ->
  let pulses (w' : World D) :=
    (raises (rst d) (trace w') - raises (rst d) (trace w),
     raises (clk d) (trace w') - raises (clk d) (trace w)) in
  let modes (w' : World D) := (last_mode (clk d) (trace w'), last_mode (rst d) (trace w')) in
  (forall reg value, pulses (snd (writeRegister d reg value w)) = (1, 16) /\
                     modes (snd (writeRegister d reg value w)) = modes w) /\
  (forall reg, pulses (snd (readRegister d reg w)) = (1, 16) /\
               modes (snd (readRegister d reg w)) = modes w) /\
  (forall t, pulses (snd (SetTime d t w)) = (8, 128) /\
             modes (snd (SetTime d t w)) = modes w) /\
  pulses (snd (ReadTime d w)) = (6, 96) /\
  modes (snd (ReadTime d w)) = modes w.
Proof.
  intro Hp. cbv zeta.
  assert (Hc : clk d <> dat d) by (destruct Hp as (H & _); exact H).
  assert (Hr : rst d <> dat d) by (destruct Hp as (_ & _ & H); congruence).
  assert (Hframes : forall (X : Type) (g : X -> list Event) (l : list X),
             (forall x, raises (rst d) (g x) = 1 /\ raises (clk d) (g x) = 16 /\
                        forall p, p <> dat d ->
                                  Forall (fun e => configures p e = false) (g x)) ->
             raises (rst d) (flat_map g l) = Z.of_nat (length l) /\
             raises (clk d) (flat_map g l) = 16 * Z.of_nat (length l) /\
             forall p, p <> dat d ->
                       Forall (fun e => configures p e = false) (flat_map g l)).
  { intros X g l Hg. split; [|split].
    - rewrite (raises_cells (rst d) g 1); [lia|]. intro x. apply Hg.
    - apply raises_cells. intro x. apply Hg.
    - intros p Hne. apply Forall_flat_map. apply Forall_forall.
      intros x _. apply Hg. exact Hne. }
  assert (Hgoal : forall (w' : World D) (evs : list Event) (n k : Z),
             w' = push w evs ->
             raises (rst d) evs = n -> raises (clk d) evs = k ->
             (forall p, p <> dat d -> Forall (fun e => configures p e = false) evs) ->
             (raises (rst d) (trace w') - raises (rst d) (trace w),
              raises (clk d) (trace w') - raises (clk d) (trace w)) = (n, k) /\
             (last_mode (clk d) (trace w'), last_mode (rst d) (trace w')) =
             (last_mode (clk d) (trace w), last_mode (rst d) (trace w))).
  { intros w' evs n k -> Hn Hk Hcfg. cbn [push trace].
    rewrite !raises_app, !last_mode_app, Hn, Hk.
    rewrite !mode_kept by (apply Hcfg; assumption).
    split; f_equal; lia. }
  split; [|split; [|split]].
  - intros reg value. destruct (writeRegister_run D d reg value w) as [H _].
    destruct (write_frame_pulses d Hp (reg, value)) as (A & B & C).
    apply (Hgoal _ (write_frame d (reg, value))); try assumption.
    rewrite H. reflexivity.
  - intro reg. destruct (readRegister_run D d reg w) as (bs & Hlen & H & _).
    destruct (read_frame_pulses d Hp reg bs Hlen) as (A & B & C).
    apply (Hgoal _ (read_frame d reg bs)); try assumption.
    rewrite H. reflexivity.
  - intro t. destruct (SetTime_run D d t w) as [H _].
    destruct (Hframes _ (write_frame d) (SetTime_writes t) (write_frame_pulses d Hp))
      as (A & B & C).
    apply (Hgoal _ (flat_map (write_frame d) (SetTime_writes t))); try assumption.
    rewrite H. reflexivity.
  - destruct (ReadTime_run D d w) as (bss & L & F & H & _).
    destruct bss as [|b1 [|b2 [|b3 [|b4 [|b5 [|b6 [|]]]]]]]; try discriminate L.
    repeat match goal with H : Forall _ (_ :: _) |- _ => inversion_clear H end.
    apply (Hgoal _ (ReadTime_events d [b1; b2; b3; b4; b5; b6])).
    + rewrite H. reflexivity.
    + unfold ReadTime_events, ReadTime_reads. cbn [combine flat_map fst snd].
      rewrite !raises_app.
      repeat match goal with
             | Hb : length ?b = 8%nat |- context [read_frame d ?r ?b] =>
                 rewrite (proj1 (read_frame_pulses d Hp r b Hb))
             end.
      reflexivity.
    + unfold ReadTime_events, ReadTime_reads. cbn [combine flat_map fst snd].
      rewrite !raises_app.
      repeat match goal with
             | Hb : length ?b = 8%nat |- context [read_frame d ?r ?b] =>
                 rewrite (proj1 (proj2 (read_frame_pulses d Hp r b Hb)))
             end.
      reflexivity.
    + intros p Hne. unfold ReadTime_events, ReadTime_reads.
      cbn [combine flat_map fst snd].
      rewrite app_nil_r.
      do 5 (apply Forall_app; split;
            [apply (read_frame_pulses d Hp); assumption|]).
      apply (read_frame_pulses d Hp); assumption.
Qed.

Lemma pulses_per_transaction_witness :
  let d := NewDS1302 18 19 5 in
  let w := sim_world d (fun _ => 0) in
  let t := time.Date 2024 8 5 21 0 0 0 in
  distinct_pins d /\
  raises (rst d) (trace (snd (SetTime d t w))) = 8 /\
  last_mode (clk d) (trace (snd (SetTime d t w))) = None.
Proof.
  intros d w t.
  assert (Hp : distinct_pins d) by (repeat split; discriminate).
  split; [exact Hp|].
  destruct (pulses_per_transaction (SimChip d) d w Hp) as (_ & _ & H & _).
  destruct (H t) as [E1 E2].
  apply (f_equal fst) in E1. apply (f_equal fst) in E2.
  cbn [fst] in E1, E2.
  change (raises (rst d) (trace w)) with 0 in E1.
  change (last_mode (clk d) (trace w)) with (@None PinMode) in E2.
  split; [lia|exact E2].
Defined.
